(** * explore_solar_system: a shallow embedding of the planet catalog

    The program (explore_solar_system.py) loads a list of planets from a JSON
    file into a [SolarSystem] object and answers queries by name from four
    Tkinter buttons.  This file embeds the loader, the lookup and the four
    callbacks as functions in a small state-and-exception monad over the
    state of the process, and proves the properties of the specification
    about them. *)

From Stdlib Require Import List String Ascii Arith ZArith Bool Lia DecimalString.
Import ListNotations.
Local Open Scope string_scope.
Set Warnings "-register-all".

(** ** Python values

    What [json.load] can return.  The program never computes with a float,
    it only stores and prints it, so a float is represented by the text that
    [repr] gives for it.  A dict is the list of its entries in insertion
    order; the keys of a dict are distinct. *)

Inductive pyval : Type :=
| PNone
| PBool (b : bool)
| PInt (z : Z)
| PFloat (shown : string)
| PStr (s : string)
| PList (items : list pyval)
| PDict (entries : list (string * pyval)).

(** The exceptions that the modelled statements can raise. *)
Inductive exn : Type :=
| FileNotFoundError
| PermissionError
| JSONDecodeError
| KeyError (key : string)
| TypeError
| AttributeError.

(** ** class Planet

    An object is its identity ([oid], what [id()] tells apart) and its four
    attributes.  [__init__] stores its arguments as they are, and no
    statement of the program assigns to an attribute of a planet afterwards,
    so the attributes of an object are fixed once it is built. *)

Record Planet : Type := mkPlanet {
  oid : nat;
  name : pyval;
  mass : pyval;
  distance_from_sun : pyval;
  moons : pyval
}.

(** ** The state of the process *)

Inductive DialogKind : Type := ShowError | ShowInfo.

Record Dialog : Type := mkDialog {
  kind : DialogKind;
  title : string;
  message : string
}.

Record Process : Type := mkProcess {
  allocated : nat;            (* number of Planet objects built so far *)
  planets : list Planet;      (* self.planets of the SolarSystem object *)
  shown : list Dialog;        (* message boxes shown so far, oldest first *)
  reported : list exn         (* exceptions Tk caught in a callback *)
}.

Definition fresh_process : Process := mkProcess 0 [] [] [].

(** ** The files

    A file is described by what [open] and [json.load] make of it. *)

Inductive File : Type :=
| Missing                     (* open raises FileNotFoundError *)
| Unreadable                  (* open raises PermissionError *)
| Malformed                   (* json.load raises JSONDecodeError *)
| Document (data : pyval).    (* json.load returns data *)

Record Env : Type := mkEnv {
  script_dir : string;        (* os.path.dirname(os.path.abspath(__file__)) *)
  disk : string -> File
}.

(** ** Statements: state passing with exceptions *)

Inductive outcome (A : Type) : Type :=
| Return (a : A)
| Raise (e : exn).
Arguments Return {A} a.
Arguments Raise {A} e.

Definition M (A : Type) : Type := Process -> outcome A * Process.

Definition ret {A} (a : A) : M A := fun p => (Return a, p).

Definition raise {A} (e : exn) : M A := fun p => (Raise e, p).

Definition bind {A B} (m : M A) (k : A -> M B) : M B :=
  fun p =>
    match m p with
    | (Return a, p') => k a p'
    | (Raise e, p') => (Raise e, p')
    end.

Declare Scope py_scope.
Delimit Scope py_scope with py.
Notation "x <- m ;; k" := (bind m (fun x => k))
  (at level 61, m at next level, right associativity) : py_scope.
Notation "m ;; k" := (bind m (fun _ => k))
  (at level 61, right associativity) : py_scope.
Local Open Scope py_scope.

(** [try: body except FileNotFoundError: handler].  The clause catches
    [FileNotFoundError] only: none of the other exceptions of [exn] is a
    subclass of it. *)
Definition try_except_FileNotFoundError {A} (body handler : M A) : M A :=
  fun p =>
    match body p with
    | (Raise FileNotFoundError, p') => handler p'
    | r => r
    end.

(** [for x in xs: body] *)
Fixpoint for_each {A} (xs : list A) (body : A -> M unit) : M unit :=
  match xs with
  | [] => ret tt
  | x :: rest => body x ;; for_each rest body
  end.

(** ** Built-in operations *)

(** [str.lower] on ASCII text: the letters A to Z move to a to z and every
    other character stays.  The case table of Unicode beyond ASCII is not
    modelled: a theorem that turns on what the lowering computes takes the
    names it compares and the query to be ASCII text ([ascii_text] below),
    where this function and [str.lower] agree. *)
Definition lower_char (c : ascii) : ascii :=
  let n := nat_of_ascii c in
  if ((65 <=? n) && (n <=? 90))%nat then ascii_of_nat (n + 32)%nat else c.

Fixpoint str_lower (s : string) : string :=
  match s with
  | EmptyString => EmptyString
  | String c rest => String (lower_char c) (str_lower rest)
  end.

(** [v.lower()]: only a str has the method. *)
Definition py_lower (v : pyval) : M string :=
  match v with
  | PStr s => ret (str_lower s)
  | _ => raise AttributeError
  end.

Fixpoint chars (s : string) : list pyval :=
  match s with
  | EmptyString => []
  | String c rest => PStr (String c EmptyString) :: chars rest
  end.

(** [for x in v]: the elements of a list, the keys of a dict, the
    characters of a str; nothing else iterates. *)
Definition py_iter (v : pyval) : M (list pyval) :=
  match v with
  | PList items => ret items
  | PDict entries => ret (map (fun kv => PStr (fst kv)) entries)
  | PStr s => ret (chars s)
  | _ => raise TypeError
  end.

Fixpoint dict_get (entries : list (string * pyval)) (key : string) : option pyval :=
  match entries with
  | [] => None
  | (k, v) :: rest => if String.eqb k key then Some v else dict_get rest key
  end.

(** [v[key]] for a str [key]. *)
Definition py_getitem (v : pyval) (key : string) : M pyval :=
  match v with
  | PDict entries =>
      match dict_get entries key with
      | Some x => ret x
      | None => raise (KeyError key)
      end
  | _ => raise TypeError
  end.

(** [len(v)] *)
Definition py_len (v : pyval) : M nat :=
  match v with
  | PList items => ret (List.length items)
  | PDict entries => ret (List.length entries)
  | PStr s => ret (String.length s)
  | _ => raise TypeError
  end.

(** The truth value of [v] in [if v]. *)
Definition py_truthy (v : pyval) : bool :=
  match v with
  | PNone => false
  | PBool b => b
  | PInt z => negb (Z.eqb z 0)
  | PFloat r => negb (String.eqb r "0.0" || String.eqb r "-0.0")
  | PStr s => negb (String.eqb s "")
  | PList items => match items with [] => false | _ => true end
  | PDict entries => match entries with [] => false | _ => true end
  end.

(** [sep.join(v)]: every item must be a str. *)
Fixpoint join_items (sep : string) (items : list pyval) : M string :=
  match items with
  | [] => ret ""
  | PStr s :: rest =>
      match rest with
      | [] => ret s
      | _ => tail <- join_items sep rest ;; ret (s ++ sep ++ tail)
      end
  | _ :: _ => raise TypeError
  end.

Definition py_join (sep : string) (v : pyval) : M string :=
  items <- py_iter v ;; join_items sep items.

(** [os.path.join(a, b)] on a POSIX system. *)
Fixpoint ends_with_slash (s : string) : bool :=
  match s with
  | EmptyString => false
  | String c EmptyString => Ascii.eqb c "/"%char
  | String _ rest => ends_with_slash rest
  end.

Definition path_join (a b : string) : string :=
  match b with
  | String "/"%char _ => b
  | _ => if String.eqb a "" || ends_with_slash a then a ++ b else a ++ "/" ++ b
  end.

(** [open(path)] followed by [json.load]. *)
Definition open_and_parse (env : Env) (path : string) : M pyval :=
  match disk env path with
  | Missing => raise FileNotFoundError
  | Unreadable => raise PermissionError
  | Malformed => raise JSONDecodeError
  | Document data => ret data
  end.

Definition messagebox_showerror (t msg : string) : M unit :=
  fun p => (Return tt,
            mkProcess (allocated p) (planets p) (shown p ++ [mkDialog ShowError t msg]) (reported p)).

Definition messagebox_showinfo (t msg : string) : M unit :=
  fun p => (Return tt,
            mkProcess (allocated p) (planets p) (shown p ++ [mkDialog ShowInfo t msg]) (reported p)).

(** ** class Planet, class SolarSystem *)

(** [Planet(name, mass, distance_from_sun, moons)] *)
Definition Planet_new (n m d ms : pyval) : M Planet :=
  fun p => (Return (mkPlanet (allocated p) n m d ms),
            mkProcess (S (allocated p)) (planets p) (shown p) (reported p)).

(** [self.planets.append(planet)] *)
Definition planets_append (planet : Planet) : M unit :=
  fun p => (Return tt,
            mkProcess (allocated p) (planets p ++ [planet]) (shown p) (reported p)).

(** [SolarSystem.__init__]: [self.planets = []] *)
Definition SolarSystem_init : M unit :=
  fun p => (Return tt, mkProcess (allocated p) [] (shown p) (reported p)).

Definition not_found_message (full_path : string) : string :=
  "Data file not found. Ensure 'planets.json' is in the same directory as the script: "
  ++ full_path.

(** The body of the loop of [load_data]. *)
Definition load_one (planet_data : pyval) : M unit :=
  n <- py_getitem planet_data "name" ;;
  m <- py_getitem planet_data "mass" ;;
  d <- py_getitem planet_data "distance_from_sun" ;;
  ms <- py_getitem planet_data "moons" ;;
  planet <- Planet_new n m d ms ;;
  planets_append planet.

(** [SolarSystem.load_data] *)
Definition load_data (env : Env) (file_path : string) : M unit :=
  let full_path := path_join (script_dir env) file_path in
  try_except_FileNotFoundError
    (data <- open_and_parse env full_path ;;
     items <- py_iter data ;;
     for_each items load_one)
    (messagebox_showerror "Error" (not_found_message full_path)).

(** [SolarSystem.get_planet_by_name]: the loop over [self.planets]. *)
Fixpoint scan (ps : list Planet) (query : string) : M (option Planet) :=
  match ps with
  | [] => ret None
  | planet :: rest =>
      l <- py_lower (name planet) ;;
      if String.eqb l (str_lower query) then ret (Some planet) else scan rest query
  end.

Definition get_planet_by_name (query : string) : M (option Planet) :=
  fun p => scan (planets p) query p.

(** ** Rendering and the application *)

Definition nl : string := String (ascii_of_nat 10) EmptyString.

Definition str_of_nat (n : nat) : string := NilZero.string_of_uint (Nat.to_uint n).

Definition str_of_Z (z : Z) : string := NilZero.string_of_int (Z.to_int z).

Section Application.

(** [repr] of a list or a dict is the interpreter's business; the program
    only passes it through, so it stays a parameter. *)
Variable py_repr : pyval -> string.

(** What [{v}] puts in an f-string. *)
Definition py_format (v : pyval) : string :=
  match v with
  | PNone => "None"
  | PBool true => "True"
  | PBool false => "False"
  | PInt z => str_of_Z z
  | PFloat r => r
  | PStr s => s
  | PList _ | PDict _ => py_repr v
  end.

(** [Planet.__str__] *)
Definition Planet_str (self : Planet) : M string :=
  moons_text <- (if py_truthy (moons self)
                 then py_join ", " (moons self)
                 else ret "None") ;;
  ret ("Name: " ++ py_format (name self) ++ nl ++
       "Mass: " ++ py_format (mass self) ++ " kg" ++ nl ++
       "Distance from Sun: " ++ py_format (distance_from_sun self) ++ " km" ++ nl ++
       "Moons: " ++ moons_text).

(** The four callbacks; [entry] is the text of the entry field. *)
Definition show_details (entry : string) : M unit :=
  planet <- get_planet_by_name entry ;;
  match planet with
  | Some pl => text <- Planet_str pl ;; messagebox_showinfo "Planet Details" text
  | None => messagebox_showerror "Error" "Planet not found."
  end.

Definition check_existence (entry : string) : M unit :=
  planet <- get_planet_by_name entry ;;
  match planet with
  | Some _ => messagebox_showinfo "Check Existence" ("Yes, " ++ entry ++ " exists in the list.")
  | None => messagebox_showinfo "Check Existence" ("No, " ++ entry ++ " is not in the list.")
  end.

Definition get_mass (entry : string) : M unit :=
  planet <- get_planet_by_name entry ;;
  match planet with
  | Some pl =>
      messagebox_showinfo "Planet Mass"
        ("The mass of " ++ py_format (name pl) ++ " is " ++ py_format (mass pl) ++ " kg.")
  | None => messagebox_showerror "Error" "Planet not found."
  end.

Definition get_moons (entry : string) : M unit :=
  planet <- get_planet_by_name entry ;;
  match planet with
  | Some pl =>
      n <- py_len (moons pl) ;;
      messagebox_showinfo "Moon Count"
        (py_format (name pl) ++ " has " ++ str_of_nat n ++ " moon(s).")
  | None => messagebox_showerror "Error" "Planet not found."
  end.

(** [SolarSystemApp.__init__]: the widgets it builds carry no state of
    the model. *)
Definition SolarSystemApp_init (env : Env) : M unit :=
  SolarSystem_init ;;
  load_data env "planets.json".

(** What the user does once the window is up. *)
Inductive Event : Type :=
| ClickShowDetails (entry : string)
| ClickCheckExistence (entry : string)
| ClickGetMass (entry : string)
| ClickGetMoonCount (entry : string)
| ClickExit.

Definition callback (ev : Event) : M unit :=
  match ev with
  | ClickShowDetails entry => show_details entry
  | ClickCheckExistence entry => check_existence entry
  | ClickGetMass entry => get_mass entry
  | ClickGetMoonCount entry => get_moons entry
  | ClickExit => ret tt
  end.

(** Tk runs a callback under its own handler: an exception is reported
    and the loop goes on. *)
Definition run_callback (m : M unit) : M unit :=
  fun p =>
    match m p with
    | (Raise e, p') =>
        (Return tt, mkProcess (allocated p') (planets p') (shown p') (reported p' ++ [e]))
    | r => r
    end.

Fixpoint mainloop (events : list Event) : M unit :=
  match events with
  | [] => ret tt
  | ClickExit :: _ => ret tt
  | ev :: rest => run_callback (callback ev) ;; mainloop rest
  end.

(** The script: [app = SolarSystemApp(root)] and [root.mainloop()], with
    no handler around either.  [Raise e] is the process ending on the
    uncaught exception [e]. *)
Definition main (env : Env) (events : list Event) : outcome unit * Process :=
  (SolarSystemApp_init env ;; mainloop events) fresh_process.

End Application.

(** ** The words of the specification

    The specification names two kinds of loading error; the program has the
    exceptions of Python.  This is the reading of one in terms of the
    other. *)

Inductive LoadError : Type := DataSourceUnavailable | DataFormatInvalid.

Definition load_error_of (e : exn) : option LoadError :=
  match e with
  | FileNotFoundError | PermissionError => Some DataSourceUnavailable
  | JSONDecodeError | KeyError _ => Some DataFormatInvalid
  | TypeError | AttributeError => None
  end.

(** ** The catalog of the tests (test_explore_solar_system.py) *)

Definition planet_entries (n m d : string) (ms : list string) : list (string * pyval) :=
  [("name", PStr n); ("mass", PStr m); ("distance_from_sun", PStr d);
   ("moons", PList (map PStr ms))].

Definition mock_elems : list (list (string * pyval)) :=
  [planet_entries "Earth" "5.97237e24" "149600000" ["Moon"];
   planet_entries "Mars" "6.4171e23" "227900000" ["Phobos"; "Deimos"];
   planet_entries "Jupiter" "1.8982e27" "778500000" ["Io"; "Europa"];
   planet_entries "Mercury" "3.3011e23" "57910000" []].

Definition mock_data : pyval := PList (map PDict mock_elems).

(** The script lives in /app, and [f] is what /app/planets.json holds. *)
Definition env_with (f : File) : Env :=
  mkEnv "/app" (fun path => if String.eqb path "/app/planets.json" then f else Missing).

Definition loaded_env : Env := env_with (Document mock_data).

(** setUpClass: a new SolarSystem, loaded once. *)
Definition loaded : Process :=
  snd (load_data loaded_env "planets.json" fresh_process).

(** ** Vocabulary of the statements *)

(** The stored name of [pl] is text equal to [query] up to case. *)
Definition name_is (pl : Planet) (query : string) : bool :=
  match name pl with
  | PStr s => String.eqb (str_lower s) (str_lower query)
  | _ => false
  end.

(** The stored name of [pl] is text, as the data model has it. *)
Definition has_text_name (pl : Planet) : bool :=
  match name pl with
  | PStr _ => true
  | _ => false
  end.

(** A record that the scan passes over: a text name other than the query. *)
Definition passed_over (query : string) (pl : Planet) : Prop :=
  has_text_name pl = true /\ name_is pl query = false.

(** A JSON object has the four keys the loader reads. *)
Definition required_keys : list string :=
  ["name"; "mass"; "distance_from_sun"; "moons"].

Definition has_key (entries : list (string * pyval)) (key : string) : bool :=
  match dict_get entries key with
  | Some _ => true
  | None => false
  end.

Definition well_formed (entries : list (string * pyval)) : bool :=
  forallb (has_key entries) required_keys.

(** The first required key that an object lacks, in the order in which the
    loader reads them. *)
Definition missing_key (entries : list (string * pyval)) : option string :=
  find (fun key => negb (has_key entries key)) required_keys.

(** The record [pl] carries the values of the object [entries]. *)
Definition built_from (entries : list (string * pyval)) (pl : Planet) : Prop :=
  dict_get entries "name" = Some (name pl) /\
  dict_get entries "mass" = Some (mass pl) /\
  dict_get entries "distance_from_sun" = Some (distance_from_sun pl) /\
  dict_get entries "moons" = Some (moons pl).

(** The place where [load_data] looks for [file_path]. *)
Definition data_path (env : Env) (file_path : string) : string :=
  path_join (script_dir env) file_path.

(** The state after one more message box. *)
Definition with_dialog (p : Process) (d : Dialog) : Process :=
  mkProcess (allocated p) (planets p) (shown p ++ [d]) (reported p).

(** The process came up and was still running after [events]. *)
Definition keeps_running (py_repr : pyval -> string) (env : Env) : Prop :=
  forall events, exists p, main py_repr env events = (Return tt, p).

(** ** What a statement leaves alone, and further catalogs *)

(** [m] changes nothing: it only reads the state. *)
Definition reads_only {A} (m : M A) : Prop := forall p, snd (m p) = p.

(** [m] may show dialogs; the catalog stays and no object is built. *)
Definition keeps_catalog {A} (m : M A) : Prop :=
  forall p, planets (snd (m p)) = planets p /\ allocated (snd (m p)) = allocated p.

(** [m] keeps the property [I] of the state, however it ends. *)
Definition preserves (I : Process -> Prop) {A} (m : M A) : Prop :=
  forall p, I p -> I (snd (m p)).

(** The records of the catalog are distinct objects, all of them built
    before now. *)
Definition distinct_objects (p : Process) : Prop :=
  NoDup (map oid (planets p)) /\
  Forall (fun pl => oid pl < allocated p)%nat (planets p).

(** [query] is [stored], up to case, with some text put in: in front, behind
    or inside. *)
Definition padded (stored query : string) : Prop :=
  exists l pad r,
    pad <> "" /\ str_lower stored = str_lower (l ++ r) /\ query = l ++ pad ++ r.

(** A file in which the same planet comes twice, in two spellings. *)
Definition two_earths_data : pyval :=
  PList [PDict (planet_entries "EARTH" "1" "1" []);
         PDict (planet_entries "Earth" "2" "2" ["Moon"])].

Definition two_earths : Process :=
  snd (load_data (env_with (Document two_earths_data)) "planets.json" fresh_process).

(** The objects that loading these two files builds. *)
Definition upper_earth : Planet := mkPlanet 0 (PStr "EARTH") (PStr "1") (PStr "1") (PList []).

Definition proper_earth : Planet :=
  mkPlanet 1 (PStr "Earth") (PStr "2") (PStr "2") (PList [PStr "Moon"]).

Definition earth : Planet :=
  mkPlanet 0 (PStr "Earth") (PStr "5.97237e24") (PStr "149600000") (PList [PStr "Moon"]).

Definition mars : Planet :=
  mkPlanet 1 (PStr "Mars") (PStr "6.4171e23") (PStr "227900000")
           (PList [PStr "Phobos"; PStr "Deimos"]).

Definition jupiter : Planet :=
  mkPlanet 2 (PStr "Jupiter") (PStr "1.8982e27") (PStr "778500000")
           (PList [PStr "Io"; PStr "Europa"]).

Definition mercury : Planet :=
  mkPlanet 3 (PStr "Mercury") (PStr "3.3011e23") (PStr "57910000") (PList []).

(** An array in which the third object has no mass. *)
Definition no_mass : list (string * pyval) :=
  [("name", PStr "Venus"); ("distance_from_sun", PStr "108200000"); ("moons", PList [])].

Definition broken_data : pyval :=
  PList (map PDict [planet_entries "Earth" "5.97237e24" "149600000" ["Moon"];
                    planet_entries "Mars" "6.4171e23" "227900000" ["Phobos"; "Deimos"]]
         ++ PDict no_mass :: [PDict (planet_entries "Mercury" "3.3011e23" "57910000" [])]).

(** The file holds something that is not the array the loader expects:
    text that is not JSON, or an array in which the objects before some
    index are well formed and the object at that index lacks a key. *)
Inductive format_fault : File -> exn -> Prop :=
| fault_not_json : format_fault Malformed JSONDecodeError
| fault_missing_key (before : list (list (string * pyval))) (bad : list (string * pyval))
                    (rest : list pyval) (key : string) :
    forallb well_formed before = true ->
    missing_key bad = Some key ->
    format_fault (Document (PList (map PDict before ++ PDict bad :: rest))) (KeyError key).

(** The specification's rendering of a sequence of moon names: the names
    joined by a comma and a space, or the token "None" when there is none. *)
Definition moons_text (ms : list string) : string :=
  match ms with
  | [] => "None"
  | _ => String.concat ", " ms
  end.

(** ** ASCII text *)

(** Every character of [s] is below 128.  On such text [str_lower] is what
    [str.lower] computes; beyond it the two differ, as for a capital E with
    an accent, which [str.lower] lowers and [str_lower] leaves. *)
Fixpoint ascii_text (s : string) : bool :=
  match s with
  | EmptyString => true
  | String c rest => (nat_of_ascii c <? 128)%nat && ascii_text rest
  end.

(** The name of [pl], when it is a str, is ASCII text. *)
Definition ascii_name (pl : Planet) : bool :=
  match name pl with
  | PStr s => ascii_text s
  | _ => true
  end.

(** The name of the object [entries], when it is a str, is ASCII text. *)
Definition ascii_entry_name (entries : list (string * pyval)) : bool :=
  match dict_get entries "name" with
  | Some (PStr s) => ascii_text s
  | _ => true
  end.

(** ** Vocabulary of the further properties *)

(** [v] is a str. *)
Definition is_str (v : pyval) : bool :=
  match v with
  | PStr _ => true
  | _ => false
  end.

(** [v] is a JSON object. *)
Definition is_object (v : pyval) : bool :=
  match v with
  | PDict _ => true
  | _ => false
  end.

(** [v] is a JSON array. *)
Definition is_array (v : pyval) : bool :=
  match v with
  | PList _ => true
  | _ => false
  end.

(** The object [entries] has a text name other than [query] up to case. *)
Definition named_otherwise (query : string) (entries : list (string * pyval)) : Prop :=
  exists s, dict_get entries "name" = Some (PStr s) /\ str_lower s <> str_lower query.

(** A click on one of the four query buttons. *)
Definition is_query (ev : Event) : bool :=
  match ev with
  | ClickExit => false
  | _ => true
  end.

(** The state after Tk reported one more exception. *)
Definition with_report (p : Process) (e : exn) : Process :=
  mkProcess (allocated p) (planets p) (shown p) (reported p ++ [e]).

(** The number of answers given so far: message boxes and reported
    exceptions. *)
Definition answers (p : Process) : nat :=
  (List.length (shown p) + List.length (reported p))%nat.

(** A catalog in which the second record has a number for a name. *)
Definition nameless : Planet := mkPlanet 1 (PInt 4) (PStr "1") (PStr "1") (PList []).

Definition with_nameless : Process := mkProcess 3 [jupiter; nameless; earth] [] [].

(** A record whose moons hold something that is not a name. *)
Definition odd_moons : Planet :=
  mkPlanet 0 (PStr "Odd") (PStr "1") (PStr "1") (PList [PStr "A"; PInt 2]).

(** ** The lookup *)

Section Lookup.

Variable query : string.

Lemma scan_keeps_state (ps : list Planet) (p : Process) :
  snd (scan ps query p) = p.
Proof.
  induction ps as [|pl rest IH]; simpl; [reflexivity|].
  unfold bind, py_lower.
  destruct (name pl); try reflexivity.
  unfold ret at 1.
  destruct (String.eqb _ _); [reflexivity | exact IH].
Qed.

Lemma scan_step_hit (pl : Planet) (rest : list Planet) (p : Process) :
  name_is pl query = true ->
  scan (pl :: rest) query p = (Return (Some pl), p).
Proof.
  unfold name_is. simpl. unfold bind, py_lower.
  destruct (name pl); try discriminate.
  unfold ret. intros ->. reflexivity.
Qed.

Lemma scan_step_miss (pl : Planet) (rest : list Planet) (p : Process) :
  passed_over query pl ->
  scan (pl :: rest) query p = scan rest query p.
Proof.
  unfold passed_over, has_text_name, name_is. simpl. unfold bind, py_lower.
  destruct (name pl); intros [Ht Hn]; try discriminate.
  unfold ret. rewrite Hn. reflexivity.
Qed.

(** The scan returns the first record whose name is the query up to
    case, whatever follows it. *)
Lemma scan_first (before : list Planet) (pl : Planet) (after : list Planet) (p : Process) :
  Forall (passed_over query) before ->
  name_is pl query = true ->
  scan (before ++ pl :: after)%list query p = (Return (Some pl), p).
Proof.
  intros Hb Hpl. induction Hb as [|x before Hx _ IH]; simpl app.
  - apply scan_step_hit; assumption.
  - rewrite scan_step_miss by assumption. exact IH.
Qed.

Lemma scan_none (ps : list Planet) (p : Process) :
  Forall (passed_over query) ps ->
  scan ps query p = (Return None, p).
Proof.
  intros H. induction H as [|x ps Hx _ IH]; [reflexivity|].
  rewrite scan_step_miss by assumption. exact IH.
Qed.

(** Conversely, what the scan found is preceded by records it passed
    over. *)
Lemma scan_found (ps : list Planet) (p p' : Process) (pl : Planet) :
  scan ps query p = (Return (Some pl), p') ->
  exists before after,
    ps = (before ++ pl :: after)%list /\
    Forall (passed_over query) before /\
    name_is pl query = true.
Proof.
  induction ps as [|x rest IH]; simpl; [discriminate|].
  unfold bind, py_lower.
  destruct (name x) eqn:Hname; try discriminate.
  unfold ret at 1.
  destruct (String.eqb (str_lower s) (str_lower query)) eqn:Heq.
  - intros H. injection H as <- _.
    exists [], rest. repeat split; [constructor|].
    unfold name_is. rewrite Hname. exact Heq.
  - intros H. destruct (IH H) as (before & after & -> & Hb & Hm).
    exists (x :: before), after. repeat split; [|exact Hm].
    constructor; [|exact Hb].
    unfold passed_over, has_text_name, name_is. rewrite Hname. split; [reflexivity | exact Heq].
Qed.

Lemma scan_not_found (ps : list Planet) (p p' : Process) :
  scan ps query p = (Return None, p') ->
  Forall (passed_over query) ps.
Proof.
  induction ps as [|x rest IH]; simpl; [constructor|].
  unfold bind, py_lower.
  destruct (name x) eqn:Hname; try discriminate.
  unfold ret at 1.
  destruct (String.eqb (str_lower s) (str_lower query)) eqn:Heq; [discriminate|].
  intros H. constructor; [|exact (IH H)].
  unfold passed_over, has_text_name, name_is. rewrite Hname. split; [reflexivity | exact Heq].
Qed.

(** With text names throughout, the scan ends in a record or in [None]:
    it raises nothing. *)
Lemma scan_total (ps : list Planet) (p : Process) :
  forallb has_text_name ps = true ->
  exists r, scan ps query p = (Return r, p).
Proof.
  induction ps as [|x rest IH]; simpl; intros H.
  - exists None. reflexivity.
  - apply andb_true_iff in H as [Hx Hrest].
    destruct (name_is x query) eqn:Hm.
    + exists (Some x). apply scan_step_hit. exact Hm.
    + destruct (IH Hrest) as [r Hr]. exists r.
      rewrite <- Hr. apply (scan_step_miss x rest p). split; assumption.
Qed.

End Lookup.

(** ** The loader *)

Section Loader.

(** One turn of the loop on an object with the four keys: one new object,
    appended. *)
Lemma load_one_ok (entries : list (string * pyval)) (p : Process) :
  well_formed entries = true ->
  exists pl,
    load_one (PDict entries) p
    = (Return tt, mkProcess (S (allocated p)) (planets p ++ [pl]) (shown p) (reported p)) /\
    built_from entries pl /\
    oid pl = allocated p.
Proof.
  unfold well_formed, required_keys, has_key. simpl forallb.
  destruct (dict_get entries "name") as [n|] eqn:Hn; [|discriminate].
  destruct (dict_get entries "mass") as [m|] eqn:Hm; [|discriminate].
  destruct (dict_get entries "distance_from_sun") as [d|] eqn:Hd; [|discriminate].
  destruct (dict_get entries "moons") as [ms|] eqn:Hms; [|discriminate].
  intros _. exists (mkPlanet (allocated p) n m d ms).
  split; [|split; [repeat split; assumption | reflexivity]].
  unfold load_one, bind, py_getitem. rewrite Hn, Hm, Hd, Hms. reflexivity.
Qed.

(** One turn on an object that lacks a key: [KeyError] on the first key
    missing, and the state as it was. *)
Lemma load_one_missing (entries : list (string * pyval)) (key : string) (p : Process) :
  missing_key entries = Some key ->
  load_one (PDict entries) p = (Raise (KeyError key), p).
Proof.
  unfold missing_key, required_keys, has_key, load_one, bind, py_getitem. simpl find.
  destruct (dict_get entries "name"); simpl;
    [|intros H; injection H as <-; reflexivity].
  destruct (dict_get entries "mass"); simpl;
    [|intros H; injection H as <-; reflexivity].
  destruct (dict_get entries "distance_from_sun"); simpl;
    [|intros H; injection H as <-; reflexivity].
  destruct (dict_get entries "moons"); simpl;
    [discriminate|intros H; injection H as <-; reflexivity].
Qed.

Lemma for_each_cons_ok {A} (body : A -> M unit) (x : A) (rest : list A) (p p1 : Process) :
  body x p = (Return tt, p1) ->
  for_each (x :: rest) body p = for_each rest body p1.
Proof. intros H. simpl. unfold bind. rewrite H. reflexivity. Qed.

Lemma for_each_cons_raise {A} (body : A -> M unit) (x : A) (rest : list A)
      (p p1 : Process) (e : exn) :
  body x p = (Raise e, p1) ->
  for_each (x :: rest) body p = (Raise e, p1).
Proof. intros H. simpl. unfold bind. rewrite H. reflexivity. Qed.

(** The loop over well-formed objects, followed by anything: the records
    of the objects are appended in order, and the loop goes on with what
    follows. *)
Lemma loop_prefix (elems : list (list (string * pyval))) (rest : list pyval) :
  forallb well_formed elems = true ->
  forall p, exists new,
    for_each (map PDict elems ++ rest) load_one p
    = for_each rest load_one
        (mkProcess (allocated p + List.length elems) (planets p ++ new) (shown p) (reported p)) /\
    Forall2 built_from elems new /\
    map oid new = seq (allocated p) (List.length elems).
Proof.
  induction elems as [|entries elems IH]; intros Hwf p; cbn [map app List.length].
  - exists []. rewrite Nat.add_0_r, app_nil_r. destruct p; repeat split; constructor.
  - simpl in Hwf. apply andb_true_iff in Hwf as [Hx Hrest].
    destruct (load_one_ok entries p Hx) as (pl & Hrun & Hpl & Hid).
    destruct (IH Hrest (mkProcess (S (allocated p)) (planets p ++ [pl]) (shown p) (reported p)))
      as (new & Hloop & Hnew & Hids).
    exists (pl :: new). split; [|split].
    + rewrite (for_each_cons_ok _ _ _ _ _ Hrun), Hloop. cbn [allocated planets shown reported].
      rewrite <- app_assoc, Nat.add_succ_r. reflexivity.
    + constructor; assumption.
    + simpl. rewrite Hid. simpl in Hids. rewrite Hids. reflexivity.
Qed.

Variable env : Env.
Variable file_path : string.

(** A well-formed array: every record appended, nothing else touched. *)
Lemma load_data_appends (elems : list (list (string * pyval))) (p : Process) :
  disk env (data_path env file_path) = Document (PList (map PDict elems)) ->
  forallb well_formed elems = true ->
  exists new,
    load_data env file_path p
    = (Return tt,
       mkProcess (allocated p + List.length elems) (planets p ++ new) (shown p) (reported p)) /\
    Forall2 built_from elems new /\
    map oid new = seq (allocated p) (List.length elems).
Proof.
  intros Hdisk Hwf.
  destruct (loop_prefix elems [] Hwf p) as (new & Hloop & Hnew & Hids).
  exists new. split; [|split; assumption].
  unfold load_data, try_except_FileNotFoundError, bind, open_and_parse.
  fold (data_path env file_path). rewrite Hdisk. simpl.
  rewrite app_nil_r in Hloop. rewrite Hloop. reflexivity.
Qed.

(** An array whose element [List.length before] lacks a key: the records before
    it are appended, then [KeyError] leaves [load_data]. *)
Lemma load_data_stops (before : list (list (string * pyval)))
      (bad : list (string * pyval)) (rest : list pyval) (key : string) (p : Process) :
  disk env (data_path env file_path) = Document (PList (map PDict before ++ PDict bad :: rest)) ->
  forallb well_formed before = true ->
  missing_key bad = Some key ->
  exists new,
    load_data env file_path p
    = (Raise (KeyError key),
       mkProcess (allocated p + List.length before) (planets p ++ new) (shown p) (reported p)) /\
    Forall2 built_from before new /\
    map oid new = seq (allocated p) (List.length before).
Proof.
  intros Hdisk Hwf Hkey.
  destruct (loop_prefix before (PDict bad :: rest) Hwf p) as (new & Hloop & Hnew & Hids).
  exists new. split; [|split; assumption].
  unfold load_data, try_except_FileNotFoundError, bind, open_and_parse.
  fold (data_path env file_path). rewrite Hdisk. simpl.
  rewrite Hloop.
  rewrite (for_each_cons_raise _ _ _ _ _ _ (load_one_missing bad key _ Hkey)).
  reflexivity.
Qed.

(** The three failures of [open] and [json.load]. *)
Lemma load_data_missing (p : Process) :
  disk env (data_path env file_path) = Missing ->
  load_data env file_path p
  = (Return tt, with_dialog p (mkDialog ShowError "Error" (not_found_message (data_path env file_path)))).
Proof.
  intros Hdisk. unfold load_data, try_except_FileNotFoundError, bind, open_and_parse.
  fold (data_path env file_path). rewrite Hdisk. reflexivity.
Qed.

Lemma load_data_unreadable (p : Process) :
  disk env (data_path env file_path) = Unreadable ->
  load_data env file_path p = (Raise PermissionError, p).
Proof.
  intros Hdisk. unfold load_data, try_except_FileNotFoundError, bind, open_and_parse.
  fold (data_path env file_path). rewrite Hdisk. reflexivity.
Qed.

Lemma load_data_malformed (p : Process) :
  disk env (data_path env file_path) = Malformed ->
  load_data env file_path p = (Raise JSONDecodeError, p).
Proof.
  intros Hdisk. unfold load_data, try_except_FileNotFoundError, bind, open_and_parse.
  fold (data_path env file_path). rewrite Hdisk. reflexivity.
Qed.

End Loader.

(** ** Frame lemmas *)

Create HintDb frame.

Lemma reads_only_ret {A} (a : A) : reads_only (ret a).
Proof. intros p. reflexivity. Qed.

Lemma reads_only_raise {A} (e : exn) : reads_only (@raise A e).
Proof. intros p. reflexivity. Qed.

Lemma reads_only_bind {A B} (m : M A) (k : A -> M B) :
  reads_only m -> (forall a, reads_only (k a)) -> reads_only (bind m k).
Proof.
  intros Hm Hk p. unfold bind. specialize (Hm p).
  destruct (m p) as [[a|e] p1]; simpl in Hm; subst p1; [apply Hk | reflexivity].
Qed.

Lemma reads_only_py_lower (v : pyval) : reads_only (py_lower v).
Proof. destruct v; intros p; reflexivity. Qed.

Lemma reads_only_py_iter (v : pyval) : reads_only (py_iter v).
Proof. destruct v; intros p; reflexivity. Qed.

Lemma reads_only_py_len (v : pyval) : reads_only (py_len v).
Proof. destruct v; intros p; reflexivity. Qed.

Lemma reads_only_join_items (sep : string) (items : list pyval) :
  reads_only (join_items sep items).
Proof.
  induction items as [|x rest IH]; [apply reads_only_ret|].
  destruct x; try apply reads_only_raise.
  destruct rest as [|y rest']; [apply reads_only_ret|].
  change (reads_only (tail <- join_items sep (y :: rest') ;; ret (s ++ sep ++ tail))).
  apply reads_only_bind; [exact IH | intros; apply reads_only_ret].
Qed.

Lemma reads_only_py_join (sep : string) (v : pyval) : reads_only (py_join sep v).
Proof.
  apply reads_only_bind; [apply reads_only_py_iter | intros; apply reads_only_join_items].
Qed.

Lemma reads_only_get_planet_by_name (query : string) : reads_only (get_planet_by_name query).
Proof. intros p. apply scan_keeps_state. Qed.

Lemma reads_only_Planet_str (py_repr : pyval -> string) (pl : Planet) :
  reads_only (Planet_str py_repr pl).
Proof.
  apply reads_only_bind; [|intros; apply reads_only_ret].
  destruct (py_truthy (moons pl)); [apply reads_only_py_join | apply reads_only_ret].
Qed.

Lemma keeps_catalog_reads_only {A} (m : M A) : reads_only m -> keeps_catalog m.
Proof. intros H p. rewrite H. split; reflexivity. Qed.

Lemma keeps_catalog_bind {A B} (m : M A) (k : A -> M B) :
  keeps_catalog m -> (forall a, keeps_catalog (k a)) -> keeps_catalog (bind m k).
Proof.
  intros Hm Hk p. unfold bind. specialize (Hm p).
  destruct (m p) as [[a|e] p1]; simpl in Hm; [|exact Hm].
  destruct (Hk a p1) as [Hps Hal]. rewrite Hps, Hal. exact Hm.
Qed.

Lemma keeps_catalog_showinfo (t msg : string) : keeps_catalog (messagebox_showinfo t msg).
Proof. intros p. split; reflexivity. Qed.

Lemma keeps_catalog_showerror (t msg : string) : keeps_catalog (messagebox_showerror t msg).
Proof. intros p. split; reflexivity. Qed.

#[local] Hint Resolve reads_only_ret reads_only_raise reads_only_py_lower reads_only_py_iter
  reads_only_py_len reads_only_join_items reads_only_py_join reads_only_get_planet_by_name
  reads_only_Planet_str keeps_catalog_reads_only keeps_catalog_showinfo
  keeps_catalog_showerror : frame.

Section MainLoop.

Variable py_repr : pyval -> string.

Lemma keeps_catalog_callback (ev : Event) : keeps_catalog (callback py_repr ev).
Proof.
  destruct ev; simpl; auto with frame;
    apply keeps_catalog_bind; auto with frame;
    intros [pl|]; auto with frame;
    apply keeps_catalog_bind; auto with frame.
Qed.

(** A callback under Tk's handler always comes back. *)
Lemma run_callback_returns (ev : Event) (p : Process) :
  exists p', run_callback (callback py_repr ev) p = (Return tt, p') /\ planets p' = planets p.
Proof.
  unfold run_callback. destruct (keeps_catalog_callback ev p) as [H _].
  destruct (callback py_repr ev p) as [[[]|e] p1]; simpl in H; eexists; split;
    try reflexivity; exact H.
Qed.

(** The event loop ends normally after any sequence of clicks, and the
    catalog is what it was when the loop began. *)
Lemma mainloop_returns (events : list Event) (p : Process) :
  exists p', mainloop py_repr events p = (Return tt, p') /\ planets p' = planets p.
Proof.
  revert p. induction events as [|ev rest IH]; intros p.
  - exists p. split; reflexivity.
  - destruct (run_callback_returns ev p) as (p1 & Hrun & Hp1).
    destruct (IH p1) as (p2 & Hloop & Hp2).
    assert (Hstep : (run_callback (callback py_repr ev) ;; mainloop py_repr rest) p
                    = (Return tt, p2)).
    { unfold bind. rewrite Hrun. exact Hloop. }
    destruct ev; simpl; try (exists p2; split; [exact Hstep | congruence]).
    exists p. split; reflexivity.
Qed.

End MainLoop.

(** ** Text *)

Lemma length_str_lower (s : string) : String.length (str_lower s) = String.length s.
Proof. induction s as [|c s IH]; simpl; [reflexivity | rewrite IH; reflexivity]. Qed.

Lemma length_append (a b : string) :
  String.length (a ++ b) = (String.length a + String.length b)%nat.
Proof. induction a as [|c a IH]; simpl; [reflexivity | rewrite IH; reflexivity]. Qed.

(** Lowering keeps the length, so no padded query equals the stored name up
    to case: nothing is trimmed. *)
Lemma padded_differs (stored query : string) :
  padded stored query -> str_lower stored <> str_lower query.
Proof.
  intros (l & pad & r & Hpad & Hstored & ->) Heq.
  rewrite Hstored in Heq. apply (f_equal String.length) in Heq.
  rewrite !length_str_lower, !length_append in Heq.
  destruct pad as [|c pad]; [apply Hpad; reflexivity|]. simpl in Heq. lia.
Qed.

Lemma name_is_lower (pl : Planet) (q q' : string) :
  str_lower q = str_lower q' -> name_is pl q = name_is pl q'.
Proof. unfold name_is. intros ->. reflexivity. Qed.

Lemma name_is_text (pl : Planet) (s q : string) :
  name pl = PStr s -> name_is pl q = String.eqb (str_lower s) (str_lower q).
Proof. unfold name_is. intros ->. reflexivity. Qed.

(** The outcome of a scan is a function of the list and the query. *)
Lemma scan_outcome_of_list (ps : list Planet) (query : string) (p p' : Process) :
  fst (scan ps query p) = fst (scan ps query p').
Proof.
  induction ps as [|pl rest IH]; simpl; [reflexivity|].
  unfold bind, py_lower. destruct (name pl); try reflexivity.
  unfold ret at 1 3. destruct (String.eqb _ _); [reflexivity | exact IH].
Qed.

Lemma get_planet_by_name_first (p : Process) (query : string)
      (before : list Planet) (pl : Planet) (after : list Planet) :
  planets p = (before ++ pl :: after)%list ->
  Forall (passed_over query) before ->
  name_is pl query = true ->
  get_planet_by_name query p = (Return (Some pl), p).
Proof.
  intros Hps Hb Hpl. unfold get_planet_by_name. rewrite Hps.
  apply scan_first; assumption.
Qed.

Lemma passed_over_all (query : string) (ps : list Planet) :
  forallb has_text_name ps = true ->
  (forall pl, In pl ps -> name_is pl query = false) ->
  Forall (passed_over query) ps.
Proof.
  intros Ht Hn. apply Forall_forall. intros pl Hin. split; [|apply Hn; exact Hin].
  rewrite forallb_forall in Ht. apply Ht. exact Hin.
Qed.

(** ** The catalogs of the examples *)

(** test_data_loads_successfully *)
Example loaded_planets : planets loaded = [earth; mars; jupiter; mercury].
Proof. reflexivity. Qed.

Example two_earths_planets : planets two_earths = [upper_earth; proper_earth].
Proof. reflexivity. Qed.

(** test_case_insensitive_planet_name *)
Example test_case_insensitive : fst (get_planet_by_name "earth" loaded) = Return (Some earth).
Proof. reflexivity. Qed.

(** test_invalid_planet_name, test_blank_input, test_special_character_input,
    test_numeric_input *)
Example test_no_such_names :
  map (fun q => fst (get_planet_by_name q loaded)) ["Vulcan"; ""; "@#"; "123"]
  = [Return None; Return None; Return None; Return None].
Proof. reflexivity. Qed.

(** test_get_mass, test_get_distance_from_sun *)
Example test_projections :
  fst (get_planet_by_name "Mars" loaded) = Return (Some mars) /\
  mass mars = PStr "6.4171e23" /\
  fst (get_planet_by_name "Jupiter" loaded) = Return (Some jupiter) /\
  distance_from_sun jupiter = PStr "778500000".
Proof. repeat split. Qed.

(** A stored name that is not text stops the scan that reaches it. *)
Example number_for_a_name :
  fst (get_planet_by_name "mars"
         (mkProcess 2 [mkPlanet 0 (PInt 4) PNone PNone PNone; mars] [] []))
  = Raise AttributeError.
Proof. reflexivity. Qed.

(** ** The catalog holds distinct objects *)

Lemma reads_only_py_getitem (v : pyval) (key : string) : reads_only (py_getitem v key).
Proof.
  destruct v; intros p; try reflexivity.
  simpl. destruct (dict_get entries key); reflexivity.
Qed.

Lemma preserves_reads_only (I : Process -> Prop) {A} (m : M A) :
  reads_only m -> preserves I m.
Proof. intros H p Hp. rewrite H. exact Hp. Qed.

Lemma preserves_bind (I : Process -> Prop) {A B} (m : M A) (k : A -> M B) :
  preserves I m -> (forall a, preserves I (k a)) -> preserves I (bind m k).
Proof.
  intros Hm Hk p Hp. unfold bind. specialize (Hm p Hp).
  destruct (m p) as [[a|e] p1]; simpl in Hm; [apply Hk|]; exact Hm.
Qed.

Lemma preserves_for_each (I : Process -> Prop) {A} (body : A -> M unit) (xs : list A) :
  (forall x, preserves I (body x)) -> preserves I (for_each xs body).
Proof.
  intros Hbody. induction xs as [|x rest IH]; [intros p Hp; exact Hp|].
  apply preserves_bind; [apply Hbody | intros _; exact IH].
Qed.

Lemma distinct_objects_same (p q : Process) :
  planets q = planets p -> allocated q = allocated p ->
  distinct_objects p -> distinct_objects q.
Proof. unfold distinct_objects. intros -> ->. exact (fun H => H). Qed.

(** A new object, appended: its identity is one that no record has. *)
Lemma distinct_objects_new (p : Process) (n m d ms : pyval) :
  distinct_objects p ->
  distinct_objects
    (mkProcess (S (allocated p)) (planets p ++ [mkPlanet (allocated p) n m d ms])
               (shown p) (reported p)).
Proof.
  intros [Hnd Hlt]. split; simpl.
  - rewrite map_app. simpl. apply NoDup_app; [exact Hnd | repeat constructor; intros [] |].
    intros x Hx [<-|[]]. rewrite Forall_forall in Hlt.
    apply in_map_iff in Hx as (pl & Hpl & Hin). specialize (Hlt pl Hin). lia.
  - apply Forall_app. split.
    + apply (Forall_impl _ (fun pl (H : (oid pl < allocated p)%nat) => Nat.lt_lt_succ_r _ _ H) Hlt).
    + repeat constructor.
Qed.

Lemma preserves_load_one (planet_data : pyval) : preserves distinct_objects (load_one planet_data).
Proof.
  unfold load_one.
  apply preserves_bind; [apply preserves_reads_only, reads_only_py_getitem | intros n].
  apply preserves_bind; [apply preserves_reads_only, reads_only_py_getitem | intros m].
  apply preserves_bind; [apply preserves_reads_only, reads_only_py_getitem | intros d].
  apply preserves_bind; [apply preserves_reads_only, reads_only_py_getitem | intros ms].
  intros p Hp. apply (distinct_objects_new p n m d ms Hp).
Qed.

Lemma preserves_load_data (env : Env) (file_path : string) :
  preserves distinct_objects (load_data env file_path).
Proof.
  intros p Hp. unfold load_data, try_except_FileNotFoundError.
  set (body := bind _ _).
  assert (Hbody : preserves distinct_objects body).
  { apply preserves_bind.
    - apply preserves_reads_only. intros q. unfold open_and_parse.
      destruct (disk env _); reflexivity.
    - intros data. apply preserves_bind;
        [apply preserves_reads_only, reads_only_py_iter | intros items].
      apply preserves_for_each. exact preserves_load_one. }
  specialize (Hbody p Hp).
  destruct (body p) as [[[]|e] p1]; simpl in Hbody; [exact Hbody|].
  destruct e; exact Hbody.
Qed.

(** X10.  Whatever the file and the clicks, and however the script ends,
    its catalog never holds one object twice, and every record in it is an
    object that was built before. *)
Lemma main_distinct_objects (py_repr : pyval -> string) (env : Env) (events : list Event) :
  distinct_objects (snd (main py_repr env events)).
Proof.
  unfold main, bind at 1.
  assert (Hinit : distinct_objects (snd (SolarSystemApp_init env fresh_process))).
  { apply preserves_load_data. split; constructor. }
  destruct (SolarSystemApp_init env fresh_process) as [[[]|e] p1]; simpl in Hinit;
    [|exact Hinit].
  revert p1 Hinit. induction events as [|ev rest IH]; intros p1 Hp1; [exact Hp1|].
  assert (Hstep : forall q, distinct_objects q ->
                    distinct_objects (snd ((run_callback (callback py_repr ev) ;;
                                            mainloop py_repr rest) q))).
  { intros q Hq. unfold bind, run_callback.
    destruct (keeps_catalog_callback py_repr ev q) as [Hcat Halloc].
    destruct (callback py_repr ev q) as [[[]|e] q1]; simpl in Hcat, Halloc;
      apply IH; apply (distinct_objects_same q); simpl; assumption. }
  destruct ev; simpl; try (apply Hstep; exact Hp1). exact Hp1.
Qed.

(** ** Properties of the lookup *)

(** C1 (as amended).  [get_planet_by_name] compares the query with each
    stored name after lowering both, and returns the first record of the
    catalog whose lowered name is the lowered query.  So a record named
    "Earth" is what "earth", "EARTH" and "Earth" return when no record before
    it has that name up to case.  The names compared (those of the records
    up to the one returned) and the query are ASCII text. *)
Theorem lookup_ignores_case (p : Process) (before : list Planet) (pl : Planet)
        (after : list Planet) (s query : string) :
  planets p = (before ++ pl :: after)%list ->
  forallb ascii_name before = true ->
  ascii_text s = true ->
  ascii_text query = true ->
  Forall (passed_over query) before ->
  name pl = PStr s ->
  str_lower s = str_lower query ->
  get_planet_by_name query p = (Return (Some pl), p).
Proof.
  intros Hps _ _ _ Hb Hname Hlow.
  apply (get_planet_by_name_first p query before pl after Hps Hb).
  rewrite (name_is_text pl s query Hname). apply String.eqb_eq. exact Hlow.
Qed.

Lemma lookup_ignores_case_witness :
  let p := mkProcess 3 [jupiter; earth] [] [] in
  get_planet_by_name "earth" p = (Return (Some earth), p) /\
  get_planet_by_name "EARTH" p = (Return (Some earth), p) /\
  get_planet_by_name "Earth" p = (Return (Some earth), p).
Proof.
  intros p. split; [|split].
  - apply (lookup_ignores_case _ [jupiter] earth [] "Earth" "earth");
      [reflexivity | reflexivity | reflexivity | reflexivity
       | repeat constructor | reflexivity | reflexivity].
  - apply (lookup_ignores_case _ [jupiter] earth [] "Earth" "EARTH");
      [reflexivity | reflexivity | reflexivity | reflexivity
       | repeat constructor | reflexivity | reflexivity].
  - apply (lookup_ignores_case _ [jupiter] earth [] "Earth" "Earth");
      [reflexivity | reflexivity | reflexivity | reflexivity
       | repeat constructor | reflexivity | reflexivity].
Defined.

(** C1 as stated fails where an earlier record has the name in another
    spelling: the catalog holds a record named "Earth", and "earth" returns
    the record named "EARTH" in front of it. *)
Lemma lookup_earlier_spelling_wins :
  In proper_earth (planets two_earths) /\
  name proper_earth = PStr "Earth" /\
  fst (get_planet_by_name "earth" two_earths) = Return (Some upper_earth) /\
  fst (get_planet_by_name "earth" two_earths) <> Return (Some proper_earth) /\
  name upper_earth <> PStr "Earth".
Proof.
  split; [right; left; reflexivity|].
  split; [reflexivity|].
  split; [reflexivity|].
  split; [|discriminate].
  change (Return (Some upper_earth) <> Return (Some proper_earth)). discriminate.
Qed.

(** C4.  Where two or more records have the name of the query up to case,
    the first of them in catalog order is returned; the later ones stay in
    the catalog and are never the answer.  The names compared and the query
    are ASCII text. *)
Theorem lookup_first_match_wins (p : Process) (query : string)
        (before : list Planet) (first : Planet) (between : list Planet)
        (later : Planet) (after : list Planet) :
  planets p = (before ++ first :: between ++ later :: after)%list ->
  NoDup (map oid (planets p)) ->
  forallb ascii_name (before ++ [first; later]) = true ->
  ascii_text query = true ->
  Forall (passed_over query) before ->
  name_is first query = true ->
  name_is later query = true ->
  get_planet_by_name query p = (Return (Some first), p) /\
  (forall x, In x (between ++ later :: after)%list ->
             fst (get_planet_by_name query p) <> Return (Some x)) /\
  In later (planets (snd (get_planet_by_name query p))).
Proof.
  intros Hps Hnd _ _ Hb Hfirst Hlater.
  pose proof (get_planet_by_name_first p query before first _ Hps Hb Hfirst) as Hrun.
  rewrite Hrun. split; [reflexivity|]. split.
  - intros x Hin Heq. simpl in Heq. injection Heq as Heq. subst x.
    rewrite Hps, map_app in Hnd. simpl in Hnd.
    apply NoDup_remove_2 in Hnd. apply Hnd.
    apply in_or_app. right. apply in_map. exact Hin.
  - simpl. rewrite Hps. apply in_or_app. right. right.
    apply in_or_app. right. left. reflexivity.
Qed.

Lemma lookup_first_match_wins_witness :
  get_planet_by_name "earth" two_earths = (Return (Some upper_earth), two_earths) /\
  (forall x, In x [proper_earth] ->
             fst (get_planet_by_name "earth" two_earths) <> Return (Some x)) /\
  In proper_earth (planets (snd (get_planet_by_name "earth" two_earths))).
Proof.
  apply (lookup_first_match_wins two_earths "earth" [] upper_earth [] proper_earth []).
  - reflexivity.
  - repeat constructor; simpl; intuition discriminate.
  - reflexivity.
  - reflexivity.
  - constructor.
  - reflexivity.
  - reflexivity.
Defined.

(** C6.  With the text names of the data model, a query is not found
    exactly when no stored name is the query up to case, whatever the query
    is made of: the empty string, digits, symbols.  Nothing is trimmed: a
    query that is each stored name with some text added, spaces for one, is
    not found.  The stored names and the query are ASCII text. *)
Theorem lookup_not_found_unless_named (p : Process) (query : string) :
  forallb has_text_name (planets p) = true ->
  forallb ascii_name (planets p) = true ->
  ascii_text query = true ->
  ((forall pl, In pl (planets p) -> name_is pl query = false) <->
   get_planet_by_name query p = (Return None, p)) /\
  ((forall pl, In pl (planets p) -> exists s, name pl = PStr s /\ padded s query) ->
   get_planet_by_name query p = (Return None, p)).
Proof.
  intros Htext _ _. split; [split|].
  - intros Hnone. unfold get_planet_by_name. apply scan_none.
    apply passed_over_all; assumption.
  - intros Hrun pl Hin. unfold get_planet_by_name in Hrun.
    apply scan_not_found in Hrun. rewrite Forall_forall in Hrun.
    apply (Hrun pl Hin).
  - intros Hpad. unfold get_planet_by_name. apply scan_none.
    apply passed_over_all; [exact Htext|].
    intros pl Hin. destruct (Hpad pl Hin) as (s & Hname & Hs).
    rewrite (name_is_text pl s query Hname). apply String.eqb_neq.
    apply padded_differs. exact Hs.
Qed.

Lemma lookup_not_found_unless_named_witness :
  get_planet_by_name "" loaded = (Return None, loaded) /\
  get_planet_by_name "123" loaded = (Return None, loaded) /\
  get_planet_by_name "@#" loaded = (Return None, loaded) /\
  (let p := mkProcess 1 [earth] [] [] in
   get_planet_by_name "Earth " p = (Return None, p) /\
   get_planet_by_name " earth" p = (Return None, p) /\
   get_planet_by_name "Ear th" p = (Return None, p)).
Proof.
  split; [|split; [|split; [|split; [|split]]]].
  - apply (proj1 (lookup_not_found_unless_named loaded "" eq_refl eq_refl eq_refl)).
    intros pl [<-|[<-|[<-|[<-|[]]]]]; reflexivity.
  - apply (proj1 (lookup_not_found_unless_named loaded "123" eq_refl eq_refl eq_refl)).
    intros pl [<-|[<-|[<-|[<-|[]]]]]; reflexivity.
  - apply (proj1 (lookup_not_found_unless_named loaded "@#" eq_refl eq_refl eq_refl)).
    intros pl [<-|[<-|[<-|[<-|[]]]]]; reflexivity.
  - apply (proj2 (lookup_not_found_unless_named (mkProcess 1 [earth] [] []) "Earth "
                    eq_refl eq_refl eq_refl)).
    intros pl [<-|[]]. exists "Earth". split; [reflexivity|].
    exists "Earth", " ", "". split; [discriminate | split; reflexivity].
  - apply (proj2 (lookup_not_found_unless_named (mkProcess 1 [earth] [] []) " earth"
                    eq_refl eq_refl eq_refl)).
    intros pl [<-|[]]. exists "Earth". split; [reflexivity|].
    exists "", " ", "earth". split; [discriminate | split; reflexivity].
  - apply (proj2 (lookup_not_found_unless_named (mkProcess 1 [earth] [] []) "Ear th"
                    eq_refl eq_refl eq_refl)).
    intros pl [<-|[]]. exists "Earth". split; [reflexivity|].
    exists "Ear", " ", "th". split; [discriminate | split; reflexivity].
Defined.

(** C8.  [get_planet_by_name] reads and does not write: the state after the
    call is the state before it (catalog, records, dialogs), a second call
    with the same query in that state has the same outcome, and the outcome
    depends on nothing but the catalog and the query.  The query is a str,
    which no statement can change. *)
Theorem lookup_is_pure (query : string) (p : Process) :
  snd (get_planet_by_name query p) = p /\
  get_planet_by_name query (snd (get_planet_by_name query p)) = get_planet_by_name query p /\
  (forall p', planets p' = planets p ->
              fst (get_planet_by_name query p') = fst (get_planet_by_name query p)).
Proof.
  pose proof (reads_only_get_planet_by_name query p) as Hsame.
  split; [exact Hsame|]. split.
  - rewrite Hsame. reflexivity.
  - intros p' Hps. unfold get_planet_by_name. rewrite Hps. apply scan_outcome_of_list.
Qed.

(** ** Properties of the loader *)

(** C5.  A well-formed array of N objects, loaded into an empty catalog,
    gives a catalog of N records: the k-th record carries the four values
    of the k-th object, as they are. *)
Theorem load_well_formed (env : Env) (file_path : string)
        (elems : list (list (string * pyval))) (p : Process) :
  disk env (data_path env file_path) = Document (PList (map PDict elems)) ->
  forallb well_formed elems = true ->
  planets p = [] ->
  exists p',
    load_data env file_path p = (Return tt, p') /\
    List.length (planets p') = List.length elems /\
    Forall2 built_from elems (planets p').
Proof.
  intros Hdisk Hwf Hempty.
  destruct (load_data_appends env file_path elems p Hdisk Hwf) as (new & Hrun & Hnew & _).
  eexists. split; [exact Hrun|]. simpl. rewrite Hempty. simpl.
  split; [|exact Hnew]. symmetry. apply (Forall2_length Hnew).
Qed.

Lemma load_well_formed_witness :
  exists p',
    load_data loaded_env "planets.json" fresh_process = (Return tt, p') /\
    List.length (planets p') = 4 /\
    Forall2 built_from mock_elems (planets p').
Proof.
  apply (load_well_formed loaded_env "planets.json" mock_elems fresh_process);
    reflexivity.
Defined.

(** C9.  [load_data] appends: on a catalog that already holds records, a
    well-formed array of M objects leaves the old records in front and puts
    the M new ones behind them. *)
Theorem load_appends (env : Env) (file_path : string)
        (elems : list (list (string * pyval))) (p : Process) :
  disk env (data_path env file_path) = Document (PList (map PDict elems)) ->
  forallb well_formed elems = true ->
  exists p' new,
    load_data env file_path p = (Return tt, p') /\
    planets p' = (planets p ++ new)%list /\
    Forall2 built_from elems new /\
    List.length (planets p') = (List.length (planets p) + List.length elems)%nat.
Proof.
  intros Hdisk Hwf.
  destruct (load_data_appends env file_path elems p Hdisk Hwf) as (new & Hrun & Hnew & _).
  eexists. exists new. split; [exact Hrun|]. simpl.
  split; [reflexivity|]. split; [exact Hnew|].
  rewrite length_app, (Forall2_length Hnew). reflexivity.
Qed.

Lemma load_appends_witness :
  exists p' new,
    load_data loaded_env "planets.json" loaded = (Return tt, p') /\
    planets p' = ([earth; mars; jupiter; mercury] ++ new)%list /\
    Forall2 built_from mock_elems new /\
    List.length (planets p') = (4 + 4)%nat.
Proof.
  apply (load_appends loaded_env "planets.json" mock_elems loaded); reflexivity.
Defined.

(** The second call of the witness, computed. *)
Example load_twice :
  map name (planets (snd (load_data loaded_env "planets.json" loaded)))
  = map PStr ["Earth"; "Mars"; "Jupiter"; "Mercury"; "Earth"; "Mars"; "Jupiter"; "Mercury"].
Proof. reflexivity. Qed.

(** C10.  Loading is not atomic.  When the object at index k lacks a key
    and the objects before it are well formed, [KeyError] leaves [load_data]
    after the first k records were appended: they stay in the catalog. *)
Theorem load_stops_at_missing_key (env : Env) (file_path : string)
        (before : list (list (string * pyval))) (bad : list (string * pyval))
        (rest : list pyval) (key : string) (p : Process) :
  disk env (data_path env file_path)
  = Document (PList (map PDict before ++ PDict bad :: rest)) ->
  forallb well_formed before = true ->
  missing_key bad = Some key ->
  exists p' new,
    load_data env file_path p = (Raise (KeyError key), p') /\
    planets p' = (planets p ++ new)%list /\
    List.length new = List.length before /\
    Forall2 built_from before new.
Proof.
  intros Hdisk Hwf Hkey.
  destruct (load_data_stops env file_path before bad rest key p Hdisk Hwf Hkey)
    as (new & Hrun & Hnew & _).
  eexists. exists new. split; [exact Hrun|]. simpl.
  split; [reflexivity|]. split; [|exact Hnew].
  symmetry. apply (Forall2_length Hnew).
Qed.

Lemma load_stops_at_missing_key_witness :
  exists p' new,
    load_data (env_with (Document broken_data)) "planets.json" fresh_process
    = (Raise (KeyError "mass"), p') /\
    planets p' = ([] ++ new)%list /\
    List.length new = 2 /\
    Forall2 built_from
      [planet_entries "Earth" "5.97237e24" "149600000" ["Moon"];
       planet_entries "Mars" "6.4171e23" "227900000" ["Phobos"; "Deimos"]] new.
Proof.
  apply (load_stops_at_missing_key (env_with (Document broken_data)) "planets.json"
           [planet_entries "Earth" "5.97237e24" "149600000" ["Moon"];
            planet_entries "Mars" "6.4171e23" "227900000" ["Phobos"; "Deimos"]]
           no_mass [PDict (planet_entries "Mercury" "3.3011e23" "57910000" [])]
           "mass" fresh_process); reflexivity.
Defined.

(** The same load, computed: Earth and Mars are in, Mercury never is. *)
Example load_broken :
  load_data (env_with (Document broken_data)) "planets.json" fresh_process
  = (Raise (KeyError "mass"), mkProcess 2 [earth; mars] [] []).
Proof. reflexivity. Qed.

(** ** Failures of the loader and the life of the process *)

Lemma SolarSystemApp_init_is_load (env : Env) :
  SolarSystemApp_init env fresh_process = load_data env "planets.json" fresh_process.
Proof. reflexivity. Qed.

(** What leaves [SolarSystemApp.__init__] leaves the script. *)
Lemma main_raises (py_repr : pyval -> string) (env : Env) (events : list Event)
      (e : exn) (p : Process) :
  load_data env "planets.json" fresh_process = (Raise e, p) ->
  main py_repr env events = (Raise e, p).
Proof.
  intros Hload. unfold main, bind at 1. rewrite SolarSystemApp_init_is_load, Hload.
  reflexivity.
Qed.

Lemma main_runs (py_repr : pyval -> string) (env : Env) (events : list Event) (p : Process) :
  load_data env "planets.json" fresh_process = (Return tt, p) ->
  exists p', main py_repr env events = (Return tt, p') /\ planets p' = planets p.
Proof.
  intros Hload. unfold main, bind at 1. rewrite SolarSystemApp_init_is_load, Hload.
  apply mainloop_returns.
Qed.

(** C2 (as amended).  When the file is not JSON, [JSONDecodeError] leaves
    [load_data]; when an object of the array lacks a key, [KeyError] does.
    Both are errors of format, no dialog is shown for them, and nothing
    catches them: at startup the exception leaves the script, which ends the
    process before the event loop begins. *)
Theorem load_format_fault_propagates (py_repr : pyval -> string) (env : Env)
        (file_path : string) (f : File) (e : exn) (p : Process) :
  disk env (data_path env file_path) = f ->
  format_fault f e ->
  fst (load_data env file_path p) = Raise e /\
  load_error_of e = Some DataFormatInvalid /\
  shown (snd (load_data env file_path p)) = shown p /\
  (file_path = "planets.json" ->
   forall events, fst (main py_repr env events) = Raise e).
Proof.
  intros Hdisk Hfault.
  assert (Hany : forall q, exists q',
             load_data env file_path q = (Raise e, q') /\ shown q' = shown q).
  { intros q. destruct Hfault as [|before bad rest key Hwf Hkey].
    - exists q. split; [apply load_data_malformed; exact Hdisk | reflexivity].
    - destruct (load_data_stops env file_path before bad rest key q Hdisk Hwf Hkey)
        as (new & Hrun & _).
      eexists. split; [exact Hrun | reflexivity]. }
  destruct (Hany p) as (p' & Hrun & Hshown). rewrite Hrun.
  split; [reflexivity|]. split; [destruct Hfault; reflexivity|].
  split; [exact Hshown|].
  intros -> events. destruct (Hany fresh_process) as (q' & Hstart & _).
  rewrite (main_raises py_repr env events e q' Hstart). reflexivity.
Qed.

Lemma load_format_fault_propagates_witness :
  (fst (load_data (env_with Malformed) "planets.json" loaded) = Raise JSONDecodeError /\
   load_error_of JSONDecodeError = Some DataFormatInvalid /\
   shown (snd (load_data (env_with Malformed) "planets.json" loaded)) = shown loaded /\
   ("planets.json" = "planets.json" ->
    forall events, fst (main (fun _ => "") (env_with Malformed) events) = Raise JSONDecodeError))
  /\
  (fst (load_data (env_with (Document broken_data)) "planets.json" fresh_process)
   = Raise (KeyError "mass") /\
   load_error_of (KeyError "mass") = Some DataFormatInvalid /\
   shown (snd (load_data (env_with (Document broken_data)) "planets.json" fresh_process))
   = shown fresh_process /\
   ("planets.json" = "planets.json" ->
    forall events,
      fst (main (fun _ => "") (env_with (Document broken_data)) events)
      = Raise (KeyError "mass"))).
Proof.
  split.
  - apply (load_format_fault_propagates (fun _ => "") (env_with Malformed) "planets.json"
             Malformed JSONDecodeError loaded); [reflexivity | constructor].
  - apply (load_format_fault_propagates (fun _ => "") (env_with (Document broken_data))
             "planets.json" (Document broken_data) (KeyError "mass") fresh_process);
      [reflexivity|].
    apply (fault_missing_key
             [planet_entries "Earth" "5.97237e24" "149600000" ["Moon"];
              planet_entries "Mars" "6.4171e23" "227900000" ["Phobos"; "Deimos"]]
             no_mass [PDict (planet_entries "Mercury" "3.3011e23" "57910000" [])] "mass");
      reflexivity.
Defined.

(** C2 as stated fails: with a data file that is not JSON the script ends
    on the uncaught [JSONDecodeError], before any click is served. *)
Lemma malformed_file_ends_process :
  disk (env_with Malformed) (data_path (env_with Malformed) "planets.json") = Malformed /\
  main (fun _ => "") (env_with Malformed) [ClickCheckExistence "Earth"]
  = (Raise JSONDecodeError, fresh_process) /\
  ~ keeps_running (fun _ => "") (env_with Malformed).
Proof.
  split; [reflexivity|]. split; [reflexivity|].
  intros Hruns. destruct (Hruns []) as [p Hp]. discriminate Hp.
Qed.

(** C3 (as amended).  When the data file does not exist, [load_data] shows
    one error dialog that names the place where it looked, returns normally
    and leaves the catalog as it was; at startup the process then serves
    every click, with an empty catalog throughout. *)
Theorem missing_file_is_reported (py_repr : pyval -> string) (env : Env)
        (file_path : string) (p : Process) :
  disk env (data_path env file_path) = Missing ->
  load_data env file_path p
  = (Return tt,
     with_dialog p (mkDialog ShowError "Error"
                      ("Data file not found. Ensure 'planets.json' is in the same directory as the script: "
                       ++ data_path env file_path))) /\
  load_error_of FileNotFoundError = Some DataSourceUnavailable /\
  (file_path = "planets.json" ->
   forall events, exists p', main py_repr env events = (Return tt, p') /\ planets p' = []).
Proof.
  intros Hdisk. split; [apply load_data_missing; exact Hdisk|]. split; [reflexivity|].
  intros -> events.
  apply (main_runs py_repr env events _ (load_data_missing env "planets.json" _ Hdisk)).
Qed.

Lemma missing_file_is_reported_witness :
  load_data (env_with Missing) "planets.json" fresh_process
  = (Return tt,
     with_dialog fresh_process
       (mkDialog ShowError "Error"
          ("Data file not found. Ensure 'planets.json' is in the same directory as the script: "
           ++ "/app/planets.json"))) /\
  load_error_of FileNotFoundError = Some DataSourceUnavailable /\
  ("planets.json" = "planets.json" ->
   forall events, exists p',
     main (fun _ => "") (env_with Missing) events = (Return tt, p') /\ planets p' = []).
Proof.
  apply (missing_file_is_reported (fun _ => "") (env_with Missing) "planets.json" fresh_process).
  reflexivity.
Defined.

(** C3 as stated fails for a file that exists and cannot be read:
    [PermissionError] is not what the handler of [load_data] catches, no
    dialog is shown, and the script ends on the exception. *)
Lemma unreadable_file_ends_process :
  disk (env_with Unreadable) (data_path (env_with Unreadable) "planets.json") = Unreadable /\
  load_data (env_with Unreadable) "planets.json" fresh_process
  = (Raise PermissionError, fresh_process) /\
  main (fun _ => "") (env_with Unreadable) [ClickCheckExistence "Earth"]
  = (Raise PermissionError, fresh_process) /\
  ~ keeps_running (fun _ => "") (env_with Unreadable).
Proof.
  split; [reflexivity|]. split; [reflexivity|]. split; [reflexivity|].
  intros Hruns. destruct (Hruns []) as [p Hp]. discriminate Hp.
Qed.

(** After a missing file the window answers, and finds nothing. *)
Example missing_file_then_clicks :
  main (fun _ => "") (env_with Missing) [ClickCheckExistence "Earth"; ClickGetMass "Earth"]
  = (Return tt,
     mkProcess 0 []
       [mkDialog ShowError "Error" (not_found_message "/app/planets.json");
        mkDialog ShowInfo "Check Existence" "No, Earth is not in the list.";
        mkDialog ShowError "Error" "Planet not found."]
       []).
Proof. reflexivity. Qed.

(** test_file_not_found expects [FileNotFoundError] from a new SolarSystem;
    [load_data] catches it, and what comes out is a dialog and a normal
    return. *)
Example load_non_existent :
  load_data loaded_env "non_existent.json" fresh_process
  = (Return tt,
     with_dialog fresh_process
       (mkDialog ShowError "Error" (not_found_message "/app/non_existent.json"))).
Proof. reflexivity. Qed.

(** test_invalid_json_format: on the loaded SolarSystem, a file that is not
    JSON raises [JSONDecodeError] and the four records stay. *)
Example load_invalid_json :
  load_data (env_with Malformed) "planets.json" loaded = (Raise JSONDecodeError, loaded).
Proof. reflexivity. Qed.

(** ** Moons *)

Lemma join_items_text (sep : string) (ms : list string) (p : Process) :
  join_items sep (map PStr ms) p = (Return (String.concat sep ms), p).
Proof.
  induction ms as [|m rest IH]; [reflexivity|].
  destruct rest as [|m' rest']; [reflexivity|].
  change (join_items sep (map PStr (m :: m' :: rest')) p)
    with ((tail <- join_items sep (map PStr (m' :: rest')) ;; ret (m ++ sep ++ tail)) p).
  unfold bind. rewrite IH. reflexivity.
Qed.

Lemma Planet_str_text_moons (py_repr : pyval -> string) (pl : Planet)
      (ms : list string) (p : Process) :
  moons pl = PList (map PStr ms) ->
  Planet_str py_repr pl p
  = (Return ("Name: " ++ py_format py_repr (name pl) ++ nl ++
             "Mass: " ++ py_format py_repr (mass pl) ++ " kg" ++ nl ++
             "Distance from Sun: " ++ py_format py_repr (distance_from_sun pl) ++ " km" ++ nl ++
             "Moons: " ++ moons_text ms), p).
Proof.
  intros Hmoons. unfold Planet_str, bind. rewrite Hmoons.
  destruct ms as [|m rest]; [reflexivity|].
  cbn [py_truthy map]. unfold py_join, bind, py_iter, ret at 1.
  change (PStr m :: map PStr rest) with (map PStr (m :: rest)).
  rewrite join_items_text. reflexivity.
Qed.

(** C7.  For the record that the lookup finds, with a sequence of moon
    names for its moons: the moon-count button shows the length of the
    sequence, and the details show the names joined by ", ", or "None" for
    the empty sequence. *)
Theorem moons_count_and_rendering (py_repr : pyval -> string) (entry : string)
        (p : Process) (pl : Planet) (ms : list string) :
  fst (get_planet_by_name entry p) = Return (Some pl) ->
  moons pl = PList (map PStr ms) ->
  get_moons py_repr entry p
  = (Return tt,
     with_dialog p
       (mkDialog ShowInfo "Moon Count"
          (py_format py_repr (name pl) ++ " has " ++ str_of_nat (List.length ms) ++ " moon(s)."))) /\
  show_details py_repr entry p
  = (Return tt,
     with_dialog p
       (mkDialog ShowInfo "Planet Details"
          ("Name: " ++ py_format py_repr (name pl) ++ nl ++
           "Mass: " ++ py_format py_repr (mass pl) ++ " kg" ++ nl ++
           "Distance from Sun: " ++ py_format py_repr (distance_from_sun pl) ++ " km" ++ nl ++
           "Moons: " ++ moons_text ms))).
Proof.
  intros Hfound Hmoons.
  pose proof (reads_only_get_planet_by_name entry p) as Hsame.
  destruct (get_planet_by_name entry p) as [r p1] eqn:Hrun.
  simpl in Hfound, Hsame. subst r p1. split.
  - unfold get_moons, bind at 1. rewrite Hrun.
    unfold bind. rewrite Hmoons. simpl py_len. unfold ret.
    rewrite length_map. reflexivity.
  - unfold show_details, bind at 1. rewrite Hrun.
    unfold bind. rewrite (Planet_str_text_moons py_repr pl ms p Hmoons). reflexivity.
Qed.

Lemma moons_count_and_rendering_witness :
  (get_moons (fun _ => "") "mars" loaded
   = (Return tt, with_dialog loaded (mkDialog ShowInfo "Moon Count" "Mars has 2 moon(s).")) /\
   show_details (fun _ => "") "mars" loaded
   = (Return tt,
      with_dialog loaded
        (mkDialog ShowInfo "Planet Details"
           ("Name: Mars" ++ nl ++ "Mass: 6.4171e23 kg" ++ nl ++
            "Distance from Sun: 227900000 km" ++ nl ++ "Moons: Phobos, Deimos"))))
  /\
  (get_moons (fun _ => "") "MERCURY" loaded
   = (Return tt, with_dialog loaded (mkDialog ShowInfo "Moon Count" "Mercury has 0 moon(s).")) /\
   show_details (fun _ => "") "MERCURY" loaded
   = (Return tt,
      with_dialog loaded
        (mkDialog ShowInfo "Planet Details"
           ("Name: Mercury" ++ nl ++ "Mass: 3.3011e23 kg" ++ nl ++
            "Distance from Sun: 57910000 km" ++ nl ++ "Moons: None")))).
Proof.
  split.
  - apply (moons_count_and_rendering (fun _ => "") "mars" loaded mars ["Phobos"; "Deimos"]);
      reflexivity.
  - apply (moons_count_and_rendering (fun _ => "") "MERCURY" loaded mercury []);
      reflexivity.
Defined.

(** Moons that are not a sequence of names: the count of a number is a
    [TypeError], which Tk reports; the window stays. *)
Example moons_not_a_sequence :
  let p := mkProcess 1 [mkPlanet 0 (PStr "X") (PInt 1) (PInt 2) (PInt 3)] [] [] in
  fst (get_moons (fun _ => "") "x" p) = Raise TypeError /\
  main (fun _ => "")
       (env_with (Document (PList [PDict [("name", PStr "X"); ("mass", PInt 1);
                                          ("distance_from_sun", PInt 2); ("moons", PInt 3)]])))
       [ClickGetMoonCount "x"; ClickGetMass "x"]
  = (Return tt,
     mkProcess 1 [mkPlanet 0 (PStr "X") (PInt 1) (PInt 2) (PInt 3)]
       [mkDialog ShowInfo "Planet Mass" "The mass of X is 1 kg."] [TypeError]).
Proof. split; reflexivity. Qed.

(** ** Further properties of the lookup *)

Lemma scan_query_lower (ps : list Planet) (q q' : string) (p : Process) :
  str_lower q = str_lower q' -> scan ps q p = scan ps q' p.
Proof.
  intros Hq. induction ps as [|pl rest IH]; simpl; [reflexivity|].
  unfold bind, py_lower. destruct (name pl); try reflexivity.
  unfold ret at 1 3. rewrite Hq. destruct (String.eqb _ _); [reflexivity | exact IH].
Qed.

(** With text names the scan is a search for the first record that has the
    name of the query up to case. *)
Lemma scan_is_find (ps : list Planet) (query : string) (p : Process) :
  forallb has_text_name ps = true ->
  scan ps query p = (Return (find (fun pl => name_is pl query) ps), p).
Proof.
  induction ps as [|pl rest IH]; simpl; intros Ht; [reflexivity|].
  apply andb_true_iff in Ht as [Hpl Hrest].
  destruct (name_is pl query) eqn:Hm.
  - apply (scan_step_hit query pl rest p Hm).
  - rewrite <- (IH Hrest). apply (scan_step_miss query pl rest p). split; assumption.
Qed.

Lemma scan_bad_name (query : string) (before : list Planet) (bad : Planet)
      (after : list Planet) (p : Process) :
  Forall (passed_over query) before ->
  has_text_name bad = false ->
  scan (before ++ bad :: after)%list query p = (Raise AttributeError, p).
Proof.
  intros Hb Hbad. induction Hb as [|x before Hx _ IH]; simpl app.
  - unfold has_text_name in Hbad. simpl. unfold bind, py_lower.
    destruct (name bad); try reflexivity. discriminate.
  - rewrite scan_step_miss by assumption. exact IH.
Qed.

(** X1.  Two queries that are equal up to case have the same outcome on
    every catalog: the same record, the same not-found, the same
    exception. *)
Theorem lookup_same_up_to_case (q q' : string) (p : Process) :
  str_lower q = str_lower q' ->
  get_planet_by_name q p = get_planet_by_name q' p.
Proof. intros Hq. unfold get_planet_by_name. apply scan_query_lower. exact Hq. Qed.

Lemma lookup_same_up_to_case_witness :
  get_planet_by_name "JuPiTeR" loaded = get_planet_by_name "jupiter" loaded /\
  get_planet_by_name "VULCAN" with_nameless = get_planet_by_name "vulcan" with_nameless.
Proof.
  split.
  - apply (lookup_same_up_to_case "JuPiTeR" "jupiter" loaded). reflexivity.
  - apply (lookup_same_up_to_case "VULCAN" "vulcan" with_nameless). reflexivity.
Defined.

(** X2.  A record whose name is not a str stops the lookup that reaches
    it: when the records before it have text names other than the query,
    [AttributeError] leaves [get_planet_by_name], whatever comes after, and
    the state is as it was.  The names before it and the query are ASCII
    text. *)
Theorem lookup_stops_at_bad_name (p : Process) (query : string)
        (before : list Planet) (bad : Planet) (after : list Planet) :
  planets p = (before ++ bad :: after)%list ->
  forallb ascii_name before = true ->
  ascii_text query = true ->
  Forall (passed_over query) before ->
  has_text_name bad = false ->
  get_planet_by_name query p = (Raise AttributeError, p).
Proof.
  intros Hps _ _ Hb Hbad. unfold get_planet_by_name. rewrite Hps.
  apply scan_bad_name; assumption.
Qed.

Lemma lookup_stops_at_bad_name_witness :
  get_planet_by_name "earth" with_nameless = (Raise AttributeError, with_nameless).
Proof.
  apply (lookup_stops_at_bad_name with_nameless "earth" [jupiter] nameless [earth]).
  - reflexivity.
  - reflexivity.
  - reflexivity.
  - repeat constructor.
  - reflexivity.
Defined.

(** A record in front of the bad one is still found. *)
Example lookup_before_bad_name :
  get_planet_by_name "jupiter" with_nameless = (Return (Some jupiter), with_nameless).
Proof. reflexivity. Qed.

(** ** The buttons *)

Section Buttons.

Variable py_repr : pyval -> string.

(** X3.  With text names in the catalog, "Check Existence" never raises
    and always shows one information box: "Yes" when some stored name is
    the typed text up to case, "No" otherwise.  The box repeats the text as
    it was typed, not the stored name.  The stored names and the typed text
    are ASCII text. *)
Theorem check_existence_answers (entry : string) (p : Process) :
  forallb has_text_name (planets p) = true ->
  forallb ascii_name (planets p) = true ->
  ascii_text entry = true ->
  check_existence entry p
  = (Return tt,
     with_dialog p
       (mkDialog ShowInfo "Check Existence"
          (if existsb (fun pl => name_is pl entry) (planets p)
           then "Yes, " ++ entry ++ " exists in the list."
           else "No, " ++ entry ++ " is not in the list."))).
Proof.
  intros Ht _ _. unfold check_existence, bind, get_planet_by_name.
  rewrite (scan_is_find (planets p) entry p Ht).
  induction (planets p) as [|pl rest IH]; [reflexivity|].
  simpl in Ht. apply andb_true_iff in Ht as [_ Hrest].
  simpl. destruct (name_is pl entry); [reflexivity | exact (IH Hrest)].
Qed.

(** X4.  "Get Mass" on a record that the lookup finds shows the mass as
    it is stored, under the stored spelling of the name, whatever the
    spelling typed.  The names compared and the typed text are ASCII
    text. *)
Theorem get_mass_shows_stored (entry : string) (p : Process)
        (before : list Planet) (pl : Planet) (after : list Planet) (s : string) :
  planets p = (before ++ pl :: after)%list ->
  forallb ascii_name before = true ->
  ascii_text s = true ->
  ascii_text entry = true ->
  Forall (passed_over entry) before ->
  name pl = PStr s ->
  str_lower s = str_lower entry ->
  get_mass py_repr entry p
  = (Return tt,
     with_dialog p
       (mkDialog ShowInfo "Planet Mass"
          ("The mass of " ++ s ++ " is " ++ py_format py_repr (mass pl) ++ " kg."))).
Proof.
  intros Hps _ _ _ Hb Hname Hlow.
  assert (Hm : name_is pl entry = true).
  { rewrite (name_is_text pl s entry Hname). apply String.eqb_eq. exact Hlow. }
  unfold get_mass, bind.
  rewrite (get_planet_by_name_first p entry before pl after Hps Hb Hm).
  rewrite Hname. reflexivity.
Qed.

(** X5.  When no stored name is the typed text up to case, "Show
    Details", "Get Mass" and "Get Moon Count" all show the same error box,
    and nothing else changes.  The stored names and the typed text are
    ASCII text. *)
Theorem not_found_is_an_error_box (entry : string) (p : Process) :
  forallb ascii_name (planets p) = true ->
  ascii_text entry = true ->
  Forall (passed_over entry) (planets p) ->
  let box := mkDialog ShowError "Error" "Planet not found." in
  show_details py_repr entry p = (Return tt, with_dialog p box) /\
  get_mass py_repr entry p = (Return tt, with_dialog p box) /\
  get_moons py_repr entry p = (Return tt, with_dialog p box).
Proof.
  intros _ _ Hnone box.
  assert (Hrun : get_planet_by_name entry p = (Return None, p)).
  { unfold get_planet_by_name. apply scan_none. exact Hnone. }
  unfold show_details, get_mass, get_moons, bind. rewrite Hrun.
  repeat split.
Qed.

End Buttons.

Lemma check_existence_answers_witness :
  check_existence "MARS" loaded
  = (Return tt,
     with_dialog loaded
       (mkDialog ShowInfo "Check Existence" "Yes, MARS exists in the list.")) /\
  check_existence "Pluto" loaded
  = (Return tt,
     with_dialog loaded
       (mkDialog ShowInfo "Check Existence" "No, Pluto is not in the list.")).
Proof.
  split.
  - apply (check_existence_answers "MARS" loaded); reflexivity.
  - apply (check_existence_answers "Pluto" loaded); reflexivity.
Defined.

Lemma get_mass_shows_stored_witness :
  get_mass (fun _ => "") "mars" loaded
  = (Return tt,
     with_dialog loaded
       (mkDialog ShowInfo "Planet Mass" "The mass of Mars is 6.4171e23 kg.")).
Proof.
  apply (get_mass_shows_stored (fun _ => "") "mars" loaded [earth] mars [jupiter; mercury] "Mars").
  - reflexivity.
  - reflexivity.
  - reflexivity.
  - reflexivity.
  - repeat constructor.
  - reflexivity.
  - reflexivity.
Defined.

Lemma not_found_is_an_error_box_witness :
  let box := mkDialog ShowError "Error" "Planet not found." in
  show_details (fun _ => "") "Vulcan" loaded = (Return tt, with_dialog loaded box) /\
  get_mass (fun _ => "") "Vulcan" loaded = (Return tt, with_dialog loaded box) /\
  get_moons (fun _ => "") "Vulcan" loaded = (Return tt, with_dialog loaded box).
Proof.
  apply (not_found_is_an_error_box (fun _ => "") "Vulcan" loaded).
  - reflexivity.
  - reflexivity.
  - repeat constructor.
Defined.

(** ** Further properties of the loader *)

(** One turn of the loop appends one record or raises with the state as it
    was; what it raises is never what the handler of [load_data] catches. *)
Lemma load_one_outcomes (planet_data : pyval) (p : Process) :
  (exists pl, load_one planet_data p
              = (Return tt,
                 mkProcess (S (allocated p)) (planets p ++ [pl]) (shown p) (reported p))) \/
  (exists e, load_one planet_data p = (Raise e, p) /\ e <> FileNotFoundError).
Proof.
  destruct planet_data;
    try (right; exists TypeError; split; [reflexivity | discriminate]).
  unfold load_one, bind, py_getitem.
  destruct (dict_get entries "name");
    [|right; eexists; split; [reflexivity | discriminate]].
  destruct (dict_get entries "mass");
    [|right; eexists; split; [reflexivity | discriminate]].
  destruct (dict_get entries "distance_from_sun");
    [|right; eexists; split; [reflexivity | discriminate]].
  destruct (dict_get entries "moons");
    [|right; eexists; split; [reflexivity | discriminate]].
  left. eexists. reflexivity.
Qed.

Lemma loop_outcomes (items : list pyval) (p : Process) :
  exists r new,
    for_each items load_one p
    = (r, mkProcess (allocated p + List.length new) (planets p ++ new) (shown p) (reported p)) /\
    r <> Raise FileNotFoundError.
Proof.
  revert p. induction items as [|x rest IH]; intros p.
  - exists (Return tt), []. simpl. rewrite Nat.add_0_r, app_nil_r.
    destruct p; split; [reflexivity | discriminate].
  - destruct (load_one_outcomes x p) as [[pl Hrun] | (e & Hrun & He)].
    + destruct (IH (mkProcess (S (allocated p)) (planets p ++ [pl]) (shown p) (reported p)))
        as (r & new & Hloop & Hr).
      exists r, (pl :: new). split; [|exact Hr].
      rewrite (for_each_cons_ok _ _ _ _ _ Hrun), Hloop.
      cbn [allocated planets shown reported List.length].
      rewrite <- app_assoc, Nat.add_succ_r. reflexivity.
    + exists (Raise e), []. split; [|congruence].
      rewrite (for_each_cons_raise _ _ _ _ _ _ Hrun). simpl.
      rewrite Nat.add_0_r, app_nil_r. destruct p; reflexivity.
Qed.

Lemma load_data_document (env : Env) (file_path : string) (data : pyval) (p : Process) :
  disk env (data_path env file_path) = Document data ->
  load_data env file_path p
  = try_except_FileNotFoundError
      (items <- py_iter data ;; for_each items load_one)
      (messagebox_showerror "Error" (not_found_message (data_path env file_path))) p.
Proof.
  intros Hdisk. unfold load_data, try_except_FileNotFoundError, bind at 1, open_and_parse.
  fold (data_path env file_path). rewrite Hdisk. reflexivity.
Qed.

(** What a call of [load_data] does to the state, in every case. *)
Lemma load_data_effect (env : Env) (file_path : string) (p : Process) :
  exists new,
    planets (snd (load_data env file_path p)) = (planets p ++ new)%list /\
    allocated (snd (load_data env file_path p)) = (allocated p + List.length new)%nat /\
    reported (snd (load_data env file_path p)) = reported p /\
    (disk env (data_path env file_path) <> Missing ->
     shown (snd (load_data env file_path p)) = shown p).
Proof.
  destruct (disk env (data_path env file_path)) as [| | |data] eqn:Hdisk.
  - rewrite (load_data_missing env file_path p Hdisk). exists []. simpl.
    rewrite app_nil_r, Nat.add_0_r. repeat split. intros H. destruct (H eq_refl).
  - rewrite (load_data_unreadable env file_path p Hdisk). exists []. simpl.
    rewrite app_nil_r, Nat.add_0_r. repeat split.
  - rewrite (load_data_malformed env file_path p Hdisk). exists []. simpl.
    rewrite app_nil_r, Nat.add_0_r. repeat split.
  - rewrite (load_data_document env file_path data p Hdisk).
    unfold try_except_FileNotFoundError, bind.
    assert (Hiter : (exists items, py_iter data p = (Return items, p)) \/
                    py_iter data p = (Raise TypeError, p)).
    { destruct data; simpl; unfold ret, raise; eauto. }
    destruct Hiter as [[items Hiter] | Hiter]; rewrite Hiter.
    + destruct (loop_outcomes items p) as (r & new & Hloop & Hr). rewrite Hloop.
      exists new. destruct r as [[]|e]; [simpl; repeat split|].
      destruct e; try (simpl; repeat split). destruct (Hr eq_refl).
    + exists []. simpl. rewrite app_nil_r, Nat.add_0_r. repeat split.
Qed.

(** X6.  Whatever the file holds and however the call ends, [load_data]
    only appends: the records that were in the catalog stay in front, in
    their order, one object is built for each record appended, the
    exceptions reported stay, and a dialog is shown for a missing file
    only. *)
Theorem load_only_appends (env : Env) (file_path : string) (p : Process) :
  exists new,
    planets (snd (load_data env file_path p)) = (planets p ++ new)%list /\
    allocated (snd (load_data env file_path p)) = (allocated p + List.length new)%nat /\
    reported (snd (load_data env file_path p)) = reported p /\
    (disk env (data_path env file_path) <> Missing ->
     shown (snd (load_data env file_path p)) = shown p).
Proof. exact (load_data_effect env file_path p). Qed.

(** Records behind the catalog do not change an outcome that is a record or
    an exception. *)
Lemma scan_app_settled (ps new : list Planet) (query : string) (p p' : Process) :
  fst (scan ps query p) <> Return None ->
  fst (scan (ps ++ new) query p') = fst (scan ps query p).
Proof.
  induction ps as [|pl rest IH]; simpl; intros H; [destruct H; reflexivity|].
  unfold bind, py_lower in *. destruct (name pl); try reflexivity.
  unfold ret at 1 3. unfold ret at 1 in H.
  destruct (String.eqb _ _); [reflexivity | exact (IH H)].
Qed.

(** X14.  Loading again never changes an answer: a query that returned a
    record before a call of [load_data] returns the same object after it,
    whatever the file holds and however the call ends.  Only a query that
    was not found can find something new. *)
Theorem reload_keeps_answers (env : Env) (file_path : string) (query : string)
        (p : Process) :
  fst (get_planet_by_name query p) <> Return None ->
  fst (get_planet_by_name query (snd (load_data env file_path p)))
  = fst (get_planet_by_name query p).
Proof.
  intros Hsettled. destruct (load_data_effect env file_path p) as (new & Hps & _).
  unfold get_planet_by_name in *. rewrite Hps.
  apply scan_app_settled. exact Hsettled.
Qed.

Lemma reload_keeps_answers_witness :
  fst (get_planet_by_name "earth"
         (snd (load_data (env_with (Document two_earths_data)) "planets.json" loaded)))
  = fst (get_planet_by_name "earth" loaded).
Proof.
  apply (reload_keeps_answers (env_with (Document two_earths_data)) "planets.json"
           "earth" loaded).
  discriminate.
Defined.

(** X7.  A top-level value that is not an array never adds a record.  The
    empty object and the empty string load as nothing, without an error;
    any other value makes [load_data] raise [TypeError]. *)
Theorem load_not_an_array (env : Env) (file_path : string) (data : pyval) (p : Process) :
  disk env (data_path env file_path) = Document data ->
  is_array data = false ->
  load_data env file_path p
  = (match data with
     | PDict [] | PStr EmptyString => Return tt
     | _ => Raise TypeError
     end, p).
Proof.
  intros Hdisk Harr. rewrite (load_data_document env file_path data p Hdisk).
  destruct data as [| b | z | r | s | items | entries]; try reflexivity.
  - destruct s; reflexivity.
  - discriminate Harr.
  - destruct entries as [|[k v] rest]; reflexivity.
Qed.

Lemma load_not_an_array_witness :
  load_data (env_with (Document (PDict [("name", PStr "Earth")]))) "planets.json" loaded
  = (Raise TypeError, loaded) /\
  load_data (env_with (Document PNone)) "planets.json" loaded = (Raise TypeError, loaded) /\
  load_data (env_with (Document (PDict []))) "planets.json" loaded = (Return tt, loaded).
Proof.
  split; [|split].
  - apply (load_not_an_array (env_with (Document (PDict [("name", PStr "Earth")])))
             "planets.json" (PDict [("name", PStr "Earth")]) loaded); reflexivity.
  - apply (load_not_an_array (env_with (Document PNone)) "planets.json" PNone loaded);
      reflexivity.
  - apply (load_not_an_array (env_with (Document (PDict []))) "planets.json" (PDict []) loaded);
      reflexivity.
Defined.

(** X8.  An array element that is not an object, after well-formed ones:
    [TypeError] leaves [load_data] once the records before it were appended,
    and they stay in the catalog. *)
Theorem load_stops_at_non_object (env : Env) (file_path : string)
        (before : list (list (string * pyval))) (bad : pyval) (rest : list pyval)
        (p : Process) :
  disk env (data_path env file_path) = Document (PList (map PDict before ++ bad :: rest)) ->
  forallb well_formed before = true ->
  is_object bad = false ->
  exists p' new,
    load_data env file_path p = (Raise TypeError, p') /\
    planets p' = (planets p ++ new)%list /\
    List.length new = List.length before /\
    Forall2 built_from before new.
Proof.
  intros Hdisk Hwf Hbad.
  destruct (loop_prefix before (bad :: rest) Hwf p) as (new & Hloop & Hnew & _).
  eexists. exists new. split; [|split; [|split; [|exact Hnew]]].
  - rewrite (load_data_document env file_path _ p Hdisk).
    unfold try_except_FileNotFoundError, bind at 1. simpl py_iter. unfold ret at 1.
    rewrite Hloop.
    assert (Hone : forall q, load_one bad q = (Raise TypeError, q)).
    { intros q. destruct bad; try reflexivity. discriminate Hbad. }
    rewrite (for_each_cons_raise _ _ _ _ _ _ (Hone _)). reflexivity.
  - reflexivity.
  - symmetry. apply (Forall2_length Hnew).
Qed.

Lemma load_stops_at_non_object_witness :
  exists p' new,
    load_data
      (env_with (Document (PList (map PDict [planet_entries "Earth" "1" "2" []]
                                  ++ PStr "Mars" :: [PDict (planet_entries "Venus" "3" "4" [])]))))
      "planets.json" fresh_process
    = (Raise TypeError, p') /\
    planets p' = ([] ++ new)%list /\
    List.length new = 1 /\
    Forall2 built_from [planet_entries "Earth" "1" "2" []] new.
Proof.
  apply (load_stops_at_non_object _ "planets.json" [planet_entries "Earth" "1" "2" []]
           (PStr "Mars") [PDict (planet_entries "Venus" "3" "4" [])] fresh_process);
    reflexivity.
Defined.

Lemma built_names_passed_over (query : string)
      (elems : list (list (string * pyval))) (new : list Planet) :
  Forall2 built_from elems new ->
  Forall (named_otherwise query) elems ->
  Forall (passed_over query) new.
Proof.
  intros Hbuilt. induction Hbuilt as [|entries pl elems new Hpl _ IH]; intros Hnames;
    [constructor|].
  inversion Hnames as [|? ? (s & Hs & Hne) Hrest]; subst.
  constructor; [|exact (IH Hrest)].
  destruct Hpl as (Hname & _). rewrite Hs in Hname. injection Hname as Hname.
  unfold passed_over, has_text_name, name_is. rewrite <- Hname.
  split; [reflexivity | apply String.eqb_neq; exact Hne].
Qed.

(** X9.  Load, then look up.  After a well-formed array is loaded, a query
    that is the name of one of its objects up to case, and of none before
    it (in the array or in the catalog as it was), returns a record that
    carries the four values of that object.  The names compared (those in
    the catalog as it was and those of the objects up to that one) and the
    query are ASCII text. *)
Theorem load_then_lookup (env : Env) (file_path : string)
        (e_before : list (list (string * pyval))) (e : list (string * pyval))
        (e_after : list (list (string * pyval))) (s query : string) (p : Process) :
  disk env (data_path env file_path)
  = Document (PList (map PDict (e_before ++ e :: e_after))) ->
  forallb well_formed (e_before ++ e :: e_after) = true ->
  forallb ascii_name (planets p) = true ->
  forallb ascii_entry_name (e_before ++ [e]) = true ->
  ascii_text query = true ->
  Forall (passed_over query) (planets p) ->
  Forall (named_otherwise query) e_before ->
  dict_get e "name" = Some (PStr s) ->
  str_lower s = str_lower query ->
  exists p' pl,
    load_data env file_path p = (Return tt, p') /\
    get_planet_by_name query p' = (Return (Some pl), p') /\
    built_from e pl.
Proof.
  intros Hdisk Hwf _ _ _ Hold Hbefore Hname Hlow.
  destruct (load_data_appends env file_path _ p Hdisk Hwf) as (new & Hrun & Hnew & _).
  apply Forall2_app_inv_l in Hnew as (n_before & n_rest & Hnb & Hnr & ->).
  inversion Hnr as [|? pl ? n_after Hpl Hna]; subst.
  eexists. exists pl. split; [exact Hrun|]. split; [|exact Hpl].
  apply (get_planet_by_name_first _ query (planets p ++ n_before) pl n_after).
  - simpl. rewrite <- app_assoc. reflexivity.
  - apply Forall_app. split; [exact Hold|].
    apply (built_names_passed_over query e_before n_before Hnb Hbefore).
  - destruct Hpl as (Hpl & _). rewrite Hname in Hpl. injection Hpl as Hpl.
    unfold name_is. rewrite <- Hpl. apply String.eqb_eq. exact Hlow.
Qed.

Lemma load_then_lookup_witness :
  exists p' pl,
    load_data loaded_env "planets.json" fresh_process = (Return tt, p') /\
    get_planet_by_name "MARS" p' = (Return (Some pl), p') /\
    built_from (planet_entries "Mars" "6.4171e23" "227900000" ["Phobos"; "Deimos"]) pl.
Proof.
  apply (load_then_lookup loaded_env "planets.json"
           [planet_entries "Earth" "5.97237e24" "149600000" ["Moon"]]
           (planet_entries "Mars" "6.4171e23" "227900000" ["Phobos"; "Deimos"])
           [planet_entries "Jupiter" "1.8982e27" "778500000" ["Io"; "Europa"];
            planet_entries "Mercury" "3.3011e23" "57910000" []]
           "Mars" "MARS" fresh_process).
  - reflexivity.
  - reflexivity.
  - reflexivity.
  - reflexivity.
  - reflexivity.
  - constructor.
  - constructor; [|constructor]. exists "Earth". split; [reflexivity | discriminate].
  - reflexivity.
  - reflexivity.
Defined.

(** ** The window *)

Lemma reads_only_run {A} (m : M A) (p : Process) :
  reads_only m -> m p = (fst (m p), p).
Proof. intros H. rewrite <- (H p) at 3. apply surjective_pairing. Qed.

Lemma join_items_not_text (sep : string) (items : list pyval) (p : Process) :
  forallb is_str items = false ->
  join_items sep items p = (Raise TypeError, p).
Proof.
  induction items as [|x rest IH]; [discriminate|].
  destruct x; try reflexivity.
  simpl forallb. intros Hrest.
  destruct rest as [|y rest']; [discriminate|].
  change (join_items sep (PStr s :: y :: rest') p)
    with ((tail <- join_items sep (y :: rest') ;; ret (s ++ sep ++ tail)) p).
  unfold bind. rewrite (IH Hrest). reflexivity.
Qed.

Section Window.

Variable py_repr : pyval -> string.

(** A query button either shows one message box and changes nothing else,
    or raises with the state as it was. *)
Lemma callback_one_answer (ev : Event) (p : Process) :
  is_query ev = true ->
  (exists d, callback py_repr ev p = (Return tt, with_dialog p d)) \/
  (exists e, callback py_repr ev p = (Raise e, p)).
Proof.
  intros Hq. destruct ev as [entry|entry|entry|entry|]; [| | | |discriminate]; simpl;
    unfold show_details, check_existence, get_mass, get_moons, bind;
    rewrite (reads_only_run _ p (reads_only_get_planet_by_name entry));
    destruct (fst (get_planet_by_name entry p)) as [[pl|]|e];
    try (left; eexists; reflexivity); try (right; eexists; reflexivity).
  - rewrite (reads_only_run _ p (reads_only_Planet_str py_repr pl)).
    destruct (fst (Planet_str py_repr pl p)) as [text|e];
      [left | right]; eexists; reflexivity.
  - rewrite (reads_only_run _ p (reads_only_py_len (moons pl))).
    destruct (fst (py_len (moons pl) p)) as [n|e];
      [left | right]; eexists; reflexivity.
Qed.

Lemma run_callback_one_answer (ev : Event) (p : Process) :
  is_query ev = true ->
  (exists d, run_callback (callback py_repr ev) p = (Return tt, with_dialog p d)) \/
  (exists e, run_callback (callback py_repr ev) p = (Return tt, with_report p e)).
Proof.
  intros Hq. unfold run_callback.
  destruct (callback_one_answer ev p Hq) as [[d Hrun] | [e Hrun]]; rewrite Hrun;
    [left | right]; eexists; reflexivity.
Qed.

Lemma mainloop_grows (events : list Event) (p : Process) :
  exists p' more,
    mainloop py_repr events p = (Return tt, p') /\
    planets p' = planets p /\
    allocated p' = allocated p /\
    shown p' = (shown p ++ more)%list.
Proof.
  revert p. induction events as [|ev rest IH]; intros p.
  - exists p, []. rewrite app_nil_r. repeat split.
  - destruct (is_query ev) eqn:Hq.
    + assert (Hstep : exists p1 one,
                 run_callback (callback py_repr ev) p = (Return tt, p1) /\
                 planets p1 = planets p /\ allocated p1 = allocated p /\
                 shown p1 = (shown p ++ one)%list).
      { destruct (run_callback_one_answer ev p Hq) as [[d Hrun] | [e Hrun]].
        - exists (with_dialog p d), [d]. repeat split. exact Hrun.
        - exists (with_report p e), []. simpl. rewrite app_nil_r. repeat split. exact Hrun. }
      destruct Hstep as (p1 & one & Hrun & Hps & Hal & Hsh).
      destruct (IH p1) as (p2 & more & Hloop & Hps2 & Hal2 & Hsh2).
      exists p2, (one ++ more)%list.
      split; [|split; [congruence | split; [congruence|]]].
      * destruct ev; try discriminate Hq; cbn [mainloop]; unfold bind; rewrite Hrun;
          exact Hloop.
      * rewrite Hsh2, Hsh, app_assoc. reflexivity.
    + destruct ev; try discriminate Hq. exists p, []. rewrite app_nil_r. repeat split.
Qed.

(** X11.  Once the window is up, no click takes it down or touches the
    catalog: if the script comes up, it serves every sequence of clicks to
    the end, with the catalog it had at startup, building no object, and
    the message boxes only add up. *)
Theorem clicks_keep_window (env : Env) (events : list Event) :
  fst (main py_repr env []) = Return tt ->
  fst (main py_repr env events) = Return tt /\
  planets (snd (main py_repr env events)) = planets (snd (main py_repr env [])) /\
  allocated (snd (main py_repr env events)) = allocated (snd (main py_repr env [])) /\
  exists more,
    shown (snd (main py_repr env events)) = (shown (snd (main py_repr env [])) ++ more)%list.
Proof.
  unfold main, bind. destruct (SolarSystemApp_init env fresh_process) as [[[]|e] p1]; simpl.
  - intros _. destruct (mainloop_grows events p1) as (p2 & more & Hloop & Hps & Hal & Hsh).
    rewrite Hloop. simpl. repeat split; try assumption. exists more. exact Hsh.
  - discriminate.
Qed.

(** X12.  Every click on a query button is answered exactly once: by one
    message box, or by one exception that Tk reports.  After n such clicks
    the boxes and the reports together are n more, and the catalog is the
    same. *)
Theorem every_query_answered_once (events : list Event) (p : Process) :
  forallb is_query events = true ->
  exists p',
    mainloop py_repr events p = (Return tt, p') /\
    answers p' = (answers p + List.length events)%nat /\
    planets p' = planets p.
Proof.
  revert p. induction events as [|ev rest IH]; intros p Hq.
  - exists p. unfold answers. simpl. rewrite Nat.add_0_r. repeat split.
  - simpl in Hq. apply andb_true_iff in Hq as [Hev Hrest].
    assert (Hstep : exists p1,
               run_callback (callback py_repr ev) p = (Return tt, p1) /\
               answers p1 = S (answers p) /\ planets p1 = planets p).
    { destruct (run_callback_one_answer ev p Hev) as [[d Hrun] | [e Hrun]];
        eexists; (split; [exact Hrun|]); unfold answers; simpl;
        rewrite length_app; simpl; (split; [lia | reflexivity]). }
    destruct Hstep as (p1 & Hrun & Hans & Hps).
    destruct (IH p1 Hrest) as (p2 & Hloop & Hans2 & Hps2).
    exists p2. split; [|split; [|congruence]].
    + destruct ev; try discriminate Hev; cbn [mainloop]; unfold bind; rewrite Hrun;
        exact Hloop.
    + rewrite Hans2, Hans. simpl. lia.
Qed.

(** X13.  Moons that hold something other than a str: "Show Details" on
    the record raises [TypeError] from the join and shows nothing; under
    Tk the exception is reported and the window stays. *)
Theorem show_details_bad_moons (entry : string) (p : Process) (pl : Planet)
        (items : list pyval) :
  fst (get_planet_by_name entry p) = Return (Some pl) ->
  moons pl = PList items ->
  forallb is_str items = false ->
  show_details py_repr entry p = (Raise TypeError, p) /\
  run_callback (callback py_repr (ClickShowDetails entry)) p
  = (Return tt, with_report p TypeError).
Proof.
  intros Hfound Hmoons Hbad.
  assert (Hrun : show_details py_repr entry p = (Raise TypeError, p)).
  { unfold show_details, bind at 1.
    rewrite (reads_only_run _ p (reads_only_get_planet_by_name entry)), Hfound.
    unfold bind, Planet_str, bind. rewrite Hmoons.
    destruct items as [|x rest]; [discriminate|].
    cbn [py_truthy]. unfold py_join, bind, py_iter, ret at 1.
    rewrite (join_items_not_text ", " (x :: rest) p Hbad). reflexivity. }
  split; [exact Hrun|].
  unfold run_callback. simpl callback. rewrite Hrun. reflexivity.
Qed.

End Window.

Lemma clicks_keep_window_witness :
  let evs := [ClickShowDetails "mars"; ClickGetMoonCount "x"; ClickExit; ClickGetMass "mars"] in
  fst (main (fun _ => "") loaded_env evs) = Return tt /\
  planets (snd (main (fun _ => "") loaded_env evs))
  = planets (snd (main (fun _ => "") loaded_env [])) /\
  allocated (snd (main (fun _ => "") loaded_env evs))
  = allocated (snd (main (fun _ => "") loaded_env [])) /\
  exists more,
    shown (snd (main (fun _ => "") loaded_env evs))
    = (shown (snd (main (fun _ => "") loaded_env [])) ++ more)%list.
Proof.
  intros evs. apply (clicks_keep_window (fun _ => "") loaded_env evs). reflexivity.
Defined.

Lemma every_query_answered_once_witness :
  let p := mkProcess 1 [odd_moons] [] [] in
  exists p',
    mainloop (fun _ => "") [ClickShowDetails "odd"; ClickGetMoonCount "odd"; ClickGetMass "no"] p
    = (Return tt, p') /\
    answers p' = (answers p + 3)%nat /\
    planets p' = planets p.
Proof.
  intros p.
  apply (every_query_answered_once (fun _ => "")
           [ClickShowDetails "odd"; ClickGetMoonCount "odd"; ClickGetMass "no"] p).
  reflexivity.
Defined.

Lemma show_details_bad_moons_witness :
  let p := mkProcess 1 [odd_moons] [] [] in
  show_details (fun _ => "") "ODD" p = (Raise TypeError, p) /\
  run_callback (callback (fun _ => "") (ClickShowDetails "ODD")) p
  = (Return tt, with_report p TypeError).
Proof.
  intros p.
  apply (show_details_bad_moons (fun _ => "") "ODD" p odd_moons [PStr "A"; PInt 2]);
    reflexivity.
Defined.

(** The count of the same moons is fine: [len] does not look inside. *)
Example odd_moons_counted :
  get_moons (fun _ => "") "odd" (mkProcess 1 [odd_moons] [] [])
  = (Return tt,
     with_dialog (mkProcess 1 [odd_moons] [] [])
       (mkDialog ShowInfo "Moon Count" "Odd has 2 moon(s).")).
Proof. reflexivity. Qed.
